(** * Keithley 2400 command server

    A shallow embedding of [serverPython/Keithley2400_server.py]: the command
    dispatcher [process_command], the per-connection loop [handle_client] and
    the body of the statistics thread [stats_reporter].

    Python values are modelled by [pyval] (what [json.loads] can produce),
    Python floats by Rocq's primitive binary64 floats, Python integers by [Z].
    Server code is written in a small free monad [prog] whose nodes are the
    calls that leave the Python interpreter (instrument, clock, logger, socket)
    or touch the shared [self] object; [run] executes a program against an
    environment, and [sched] interleaves the programs of several threads. *)

From Stdlib Require Import ZArith QArith List String Ascii Bool Lia Floats
  DecimalString.
Import ListNotations.

#[local] Set Warnings "-inexact-float,-register-all".
#[local] Open Scope string_scope.
#[local] Open Scope list_scope.
#[local] Open Scope Z_scope.

#[local] Infix "+++" := String.append (at level 60, right associativity).

(** ** Strings *)

Module PyString.

(** The double quote character, and a string between double quotes. *)
Definition dquote : string := String (ascii_of_nat 34) EmptyString.
Definition quoted (s : string) : string := dquote +++ s +++ dquote.

(** [str.isspace] on code points below 256. *)
Definition is_space (c : ascii) : bool :=
  let n := nat_of_ascii c in
  (((9 <=? n) && (n <=? 13)) || ((28 <=? n) && (n <=? 32))
   || (n =? 133) || (n =? 160))%nat.

Fixpoint lstrip (s : string) : string :=
  match s with
  | String c r => if is_space c then lstrip r else s
  | EmptyString => EmptyString
  end.

(** [rstrip]: a character is dropped when it is a space and everything after
    it has been dropped. *)
Fixpoint rstrip (s : string) : string :=
  match s with
  | String c r =>
      match rstrip r with
      | EmptyString => if is_space c then EmptyString else String c EmptyString
      | r' => String c r'
      end
  | EmptyString => EmptyString
  end.

Definition strip (s : string) : string := rstrip (lstrip s).

(** [s.split(sep)] for a one-character separator; [cur] is the field being
    read, reversed. *)
Fixpoint rev_string (acc s : string) : string :=
  match s with
  | EmptyString => acc
  | String c r => rev_string (String c acc) r
  end.

Fixpoint split_aux (sep : ascii) (cur : string) (s : string) : list string :=
  match s with
  | EmptyString => [rev_string EmptyString cur]
  | String c r =>
      if Ascii.eqb c sep
      then rev_string EmptyString cur :: split_aux sep EmptyString r
      else split_aux sep (String c cur) r
  end.

Definition split (sep : ascii) (s : string) : list string :=
  split_aux sep EmptyString s.

Definition comma : ascii := ascii_of_nat 44.

(** Number of occurrences of a character. *)
Fixpoint count (c : ascii) (s : string) : nat :=
  match s with
  | EmptyString => 0%nat
  | String a r => ((if Ascii.eqb a c then 1 else 0) + count c r)%nat
  end.

(** [str.lower] on code points below 256. *)
Definition lower_char (c : ascii) : ascii :=
  let n := nat_of_ascii c in
  if (((65 <=? n) && (n <=? 90))
      || ((192 <=? n) && (n <=? 222) && negb (n =? 215)))%nat
  then ascii_of_nat (n + 32) else c.

Fixpoint lower (s : string) : string :=
  match s with
  | EmptyString => EmptyString
  | String c r => String (lower_char c) (lower r)
  end.

(** [needle in s]. *)
Fixpoint contains (needle s : string) : bool :=
  String.prefix needle s
  || match s with
     | EmptyString => false
     | String _ r => contains needle r
     end.

End PyString.

Import PyString.

(** ** Python values and exceptions *)

(** Values decoded from JSON or built by the server. A [PDict] lists the
    entries of a dict in insertion order; its keys are pairwise different. *)
Inductive pyval : Type :=
| PNone
| PBool (b : bool)
| PInt (z : Z)
| PFloat (f : float)
| PStr (s : string)
| PList (l : list pyval)
| PDict (d : list (string * pyval)).

(** An exception: its class name and [str(e)]. *)
Record exn : Type := Exn { exn_class : string; exn_str : string }.

Definition result (A : Type) : Type := (exn + A)%type.

Definition type_name (v : pyval) : string :=
  match v with
  | PNone => "NoneType"
  | PBool _ => "bool"
  | PInt _ => "int"
  | PFloat _ => "float"
  | PStr _ => "str"
  | PList _ => "list"
  | PDict _ => "dict"
  end.

(** Truth value of an object, as tested by [if x:]. *)
Definition truthy (v : pyval) : bool :=
  match v with
  | PNone => false
  | PBool b => b
  | PInt z => negb (z =? 0)
  | PFloat f => negb (PrimFloat.eqb f 0%float)
  | PStr s => negb (String.eqb s EmptyString)
  | PList l => match l with [] => false | _ => true end
  | PDict d => match d with [] => false | _ => true end
  end.

(** [v == 'literal'] for a string literal. *)
Definition str_eq (v : pyval) (lit : string) : bool :=
  match v with
  | PStr s => String.eqb s lit
  | _ => false
  end.

Fixpoint dict_get (d : list (string * pyval)) (key : string) (default : pyval)
  : pyval :=
  match d with
  | [] => default
  | (k, v) :: r => if String.eqb k key then v else dict_get r key default
  end.

(** [v.get(key, default)]: only a dict has the method. *)
Definition py_get (v : pyval) (key : string) (default : pyval) : result pyval :=
  match v with
  | PDict d => inr (dict_get d key default)
  | _ => inl (Exn "AttributeError"
                ("'" +++ type_name v +++ "' object has no attribute 'get'"))
  end.

Definition keys (d : list (string * pyval)) : list string := map fst d.

(** ** Numbers *)

Inductive num : Type :=
| NInt (z : Z)
| NFloat (f : float).

(** [bool] is a subclass of [int]. *)
Definition as_num (v : pyval) : option num :=
  match v with
  | PBool b => Some (NInt (Z.b2z b))
  | PInt z => Some (NInt z)
  | PFloat f => Some (NFloat f)
  | _ => None
  end.

Definition Z2SF (z : Z) : spec_float :=
  match z with
  | Z0 => S754_zero false
  | Zpos p => S754_finite false p 0
  | Zneg p => S754_finite true p 0
  end.

(** [float(z)]: the nearest double, ties to even. *)
Definition int_to_float (z : Z) : result float :=
  match binary_normalize prec emax z 0 false with
  | S754_infinity _ =>
      inl (Exn "OverflowError" "int too large to convert to float")
  | sf => inr (SF2Prim sf)
  end.

(** [a / b] on integers: the correctly rounded quotient. *)
Definition int_truediv (a b : Z) : result float :=
  if b =? 0 then inl (Exn "ZeroDivisionError" "division by zero")
  else match SFdiv prec emax (Z2SF a) (Z2SF b) with
       | S754_infinity _ =>
           inl (Exn "OverflowError"
                  "integer division result too large for a float")
       | sf => inr (SF2Prim sf)
       end.

(** [x / y] on floats. *)
Definition float_truediv (x y : float) : result float :=
  if PrimFloat.eqb y 0%float
  then inl (Exn "ZeroDivisionError" "float division by zero")
  else inr (x / y)%float.

Definition ebind {A B : Type} (r : result A) (f : A -> result B) : result B :=
  match r with
  | inl e => inl e
  | inr a => f a
  end.

Definition num_to_float (a : num) : result float :=
  match a with
  | NInt z => int_to_float z
  | NFloat f => inr f
  end.

(** A binary operator on numbers: exact on two integers, in floating point as
    soon as one operand is a float. *)
Definition num_arith (fz : Z -> Z -> Z) (ff : float -> float -> float)
  (a b : num) : result num :=
  match a, b with
  | NInt x, NInt y => inr (NInt (fz x y))
  | _, _ =>
      ebind (num_to_float a) (fun x =>
      ebind (num_to_float b) (fun y => inr (NFloat (ff x y))))
  end.

Definition num_add : num -> num -> result num := num_arith Z.add PrimFloat.add.
Definition num_sub : num -> num -> result num := num_arith Z.sub PrimFloat.sub.
Definition num_mul : num -> num -> result num := num_arith Z.mul PrimFloat.mul.

Definition num_truediv (a b : num) : result float :=
  match a, b with
  | NInt x, NInt y => int_truediv x y
  | _, _ =>
      ebind (num_to_float a) (fun x =>
      ebind (num_to_float b) (fun y => float_truediv x y))
  end.

Definition operand_error (op : string) (a b : pyval) : exn :=
  Exn "TypeError"
    ("unsupported operand type(s) for " +++ op +++ ": '" +++ type_name a
     +++ "' and '" +++ type_name b +++ "'").

(** [a - b] on decoded values: defined on numbers only. *)
Definition py_sub (a b : pyval) : result num :=
  match as_num a, as_num b with
  | Some x, Some y => num_sub x y
  | _, _ => inl (operand_error "-" a b)
  end.

(** [range(n)]: [n] has to be an integer. *)
Definition py_range (n : pyval) : result (list Z) :=
  match n with
  | PInt z => inr (map Z.of_nat (seq 0 (Z.to_nat z)))
  | PBool b => inr (map Z.of_nat (seq 0 (Z.to_nat (Z.b2z b))))
  | _ => inl (Exn "TypeError"
                ("'" +++ type_name n
                 +++ "' object cannot be interpreted as an integer"))
  end.

(** [l[i]] for a non-negative index. *)
Definition py_index {A : Type} (l : list A) (i : nat) : result A :=
  match nth_error l i with
  | Some a => inr a
  | None => inl (Exn "IndexError" "list index out of range")
  end.

(** ** The server object and the outside world *)

(** The attributes of [Keithley2400Server] that commands read or assign.
    [fast_mode] holds whatever [set_fast_mode] stored, a decoded JSON value. *)
Record server : Type := Server {
  fast_mode : pyval;
  running : bool;
  read_count : Z;
  error_count : Z;
  last_stats_time : float
}.

Definition set_fast_mode (v : pyval) (s : server) : server :=
  Server v (running s) (read_count s) (error_count s) (last_stats_time s).
Definition set_read_count (n : Z) (s : server) : server :=
  Server (fast_mode s) (running s) n (error_count s) (last_stats_time s).
Definition set_error_count (n : Z) (s : server) : server :=
  Server (fast_mode s) (running s) (read_count s) n (last_stats_time s).
Definition set_last_stats_time (t : float) (s : server) : server :=
  Server (fast_mode s) (running s) (read_count s) (error_count s) t.

(** A call on the instrument handle. *)
Inductive icall : Type :=
| IWrite (cmd : pyval)
| IQuery (cmd : pyval).

Inductive level : Type := INFO | WARNING | ERROR.

(** What a run leaves behind, in the order it happened. *)
Inductive event : Type :=
| EvCall (c : icall)
| EvSleep (seconds : pyval)
| EvClock (t : float)
| EvDate (iso : string)
| EvLog (lvl : level) (msg : string)
| EvSend (response : pyval).

(** The environment answers from the history so far: the instrument's reply to
    a call (or the exception the driver raises), [time.time()],
    [datetime.now().isoformat()], and whether a [send] on the client socket
    raises. *)
Record env : Type := Env {
  instrument : list event -> icall -> result string;
  time_time : list event -> float;
  isoformat_now : list event -> string;
  socket_send : list event -> pyval -> option exn
}.

Record world : Type := World {
  self : server;
  trace : list event
}.

(** ** Programs *)

(** A server routine: it returns, raises, or performs one step and goes on
    with the outcome. An instrument call and a [send] hand back the exception
    they raised, so that [try] blocks can be written as functions on programs;
    reading and assigning an attribute of [self] are separate steps. *)
Inductive prog (A : Type) : Type :=
| Ret (a : A)
| Raise (e : exn)
| Call (c : icall) (k : result string -> prog A)
| Sleep (seconds : pyval) (k : prog A)
| Clock (k : float -> prog A)
| Date (k : string -> prog A)
| Log (lvl : level) (msg : string) (k : prog A)
| GetSelf (k : server -> prog A)
| SetSelf (f : server -> server) (k : prog A)
| Send (response : pyval) (k : option exn -> prog A).

Arguments Ret {A} a.
Arguments Raise {A} e.
Arguments Call {A} c k.
Arguments Sleep {A} seconds k.
Arguments Clock {A} k.
Arguments Date {A} k.
Arguments Log {A} lvl msg k.
Arguments GetSelf {A} k.
Arguments SetSelf {A} f k.
Arguments Send {A} response k.

Fixpoint bind {A B : Type} (p : prog A) (f : A -> prog B) : prog B :=
  match p with
  | Ret a => f a
  | Raise e => Raise e
  | Call c k => Call c (fun r => bind (k r) f)
  | Sleep d k => Sleep d (bind k f)
  | Clock k => Clock (fun t => bind (k t) f)
  | Date k => Date (fun s => bind (k s) f)
  | Log l m k => Log l m (bind k f)
  | GetSelf k => GetSelf (fun s => bind (k s) f)
  | SetSelf g k => SetSelf g (bind k f)
  | Send r k => Send r (fun o => bind (k o) f)
  end.

(** [try: p  except Exception as e: h e]. *)
Fixpoint try_except {A : Type} (p : prog A) (h : exn -> prog A) : prog A :=
  match p with
  | Ret a => Ret a
  | Raise e => h e
  | Call c k => Call c (fun r => try_except (k r) h)
  | Sleep d k => Sleep d (try_except k h)
  | Clock k => Clock (fun t => try_except (k t) h)
  | Date k => Date (fun s => try_except (k s) h)
  | Log l m k => Log l m (try_except k h)
  | GetSelf k => GetSelf (fun s => try_except (k s) h)
  | SetSelf g k => SetSelf g (try_except k h)
  | Send r k => Send r (fun o => try_except (k o) h)
  end.

Notation "x <- p ;; q" := (bind p (fun x => q))
  (at level 61, p at next level, right associativity).
Notation "p ;; q" := (bind p (fun _ => q))
  (at level 61, right associativity).

(** A pure computation that may raise. *)
Definition lift {A : Type} (r : result A) : prog A :=
  match r with
  | inl e => Raise e
  | inr a => Ret a
  end.

Definition of_outcome (o : option exn) : prog unit :=
  match o with
  | Some e => Raise e
  | None => Ret tt
  end.

(** [self.instrument.write(cmd)] and [self.instrument.query(cmd)]. *)
Definition write (cmd : pyval) : prog unit :=
  Call (IWrite cmd) (fun r => _ <- lift r ;; Ret tt).
Definition query (cmd : pyval) : prog string :=
  Call (IQuery cmd) lift.

Definition get_self : prog server := GetSelf Ret.
Definition set_self (f : server -> server) : prog unit := SetSelf f (Ret tt).
Definition clock : prog float := Clock Ret.
Definition date_now : prog string := Date Ret.
Definition log (l : level) (msg : string) : prog unit := Log l msg (Ret tt).
Definition send (response : pyval) : prog unit := Send response of_outcome.

(** ** Running one program *)

Definition record (ev : event) (w : world) : world :=
  World (self w) (trace w ++ [ev]).

Section Run.

Variable E : env.

Fixpoint run {A : Type} (p : prog A) (w : world) : result A * world :=
  match p with
  | Ret a => (inr a, w)
  | Raise e => (inl e, w)
  | Call c k => run (k (instrument E (trace w) c)) (record (EvCall c) w)
  | Sleep d k => run k (record (EvSleep d) w)
  | Clock k =>
      let t := time_time E (trace w) in run (k t) (record (EvClock t) w)
  | Date k =>
      let s := isoformat_now E (trace w) in run (k s) (record (EvDate s) w)
  | Log l m k => run k (record (EvLog l m) w)
  | GetSelf k => run (k (self w)) w
  | SetSelf f k => run k (World (f (self w)) (trace w))
  | Send r k => run (k (socket_send E (trace w) r)) (record (EvSend r) w)
  end.

End Run.

(** ** The server's routines *)

Definition success_message (msg : string) : pyval :=
  PDict [("status", PStr "success"); ("message", PStr msg)].
Definition success_data (data : pyval) : pyval :=
  PDict [("status", PStr "success"); ("data", data)].
Definition error_response (msg : string) : pyval :=
  PDict [("status", PStr "error"); ("message", PStr msg)].

(** The constants of the fast read path. *)
Definition epsilon : float := 1e-12%float.
Definition open_circuit : float := 1e9%float.

(** What one connection delivers, a [recv] at a time: an exception, the empty
    string of a closed connection, bytes that are not JSON, or a decoded
    command. *)
Inductive incoming : Type :=
| RecvRaises (e : exn)
| RecvEmpty
| RecvInvalid
| RecvJson (command : pyval).

Section Server.

(** The Python runtime the server relies on: [float(s)] on a string (or the
    [ValueError] it raises), the text of a value in an f-string under a
    format specification, and the exception [time.sleep] raises for an
    argument it rejects. *)
Variable py_float : string -> result float.
Variable py_format : string -> pyval -> string.
Variable py_sleep : pyval -> option exn.

Definition fmt (v : pyval) : string := py_format EmptyString v.

(** [time.sleep(d)] for a value taken from the request. *)
Definition sleep (d : pyval) : prog unit :=
  match py_sleep d with
  | Some e => Raise e
  | None => Sleep d (Ret tt)
  end.

(** [float(values[i])]. *)
Definition float_at (values : list string) (i : nat) : result float :=
  ebind (py_index values i) py_float.

(** The four writes that put the instrument in fast mode. *)
Definition fast_settings : list string :=
  [":SYST:AZER OFF"; ":DISP:ENAB OFF"; ":SENS:FUNC:CONC ON";
   ":FORM:ELEM VOLT,CURR"].

Fixpoint write_all (cmds : list string) : prog unit :=
  match cmds with
  | [] => Ret tt
  | c :: r => write (PStr c) ;; write_all r
  end.

(** *** [read] *)

(** The body of the inner [try] of the [read] branch. *)
Definition take_measurement (start_time : float) : prog pyval :=
  s <- get_self ;;
  if truthy (fast_mode s) then
    reply <- query (PStr ":READ?") ;;
    let values := split comma (strip reply) in
    voltage <- lift (float_at values 0) ;;
    current <- lift (float_at values 1) ;;
    resistance <- (if (epsilon <? abs current)%float
                   then lift (float_truediv voltage current)
                   else Ret open_circuit) ;;
    let power := (voltage * current)%float in
    stamp <- date_now ;;
    now <- clock ;;
    Ret (success_data (PDict
      [("voltage", PFloat voltage);
       ("current", PFloat current);
       ("resistance", PFloat resistance);
       ("power", PFloat power);
       ("timestamp", PStr stamp);
       ("read_time_ms", PFloat ((now - start_time) * 1000)%float)]))
  else
    reply <- query (PStr ":READ?") ;;
    let values := split comma (strip reply) in
    voltage <- lift (float_at values 0) ;;
    current <- lift (float_at values 1) ;;
    resistance <- (if (2 <? List.length values)%nat
                   then r <- lift (float_at values 2) ;; Ret (PFloat r)
                   else Ret PNone) ;;
    power <- (if (3 <? List.length values)%nat
              then r <- lift (float_at values 3) ;; Ret (PFloat r)
              else Ret PNone) ;;
    stamp <- date_now ;;
    now <- clock ;;
    Ret (success_data (PDict
      [("voltage", PFloat voltage);
       ("current", PFloat current);
       ("resistance", resistance);
       ("power", power);
       ("timestamp", PStr stamp);
       ("read_time_ms", PFloat ((now - start_time) * 1000)%float)])).

(** The test that sorts a failed read with the timeouts. *)
Definition is_timeout (error_msg : string) : bool :=
  contains "timeout" (lower error_msg) || contains "VI_ERROR_TMO" error_msg.

(** The [except] clause of the [read] branch. *)
Definition read_failed (e : exn) : prog pyval :=
  s <- get_self ;;
  set_self (set_error_count (error_count s + 1)) ;;
  let error_msg := exn_str e in
  (if is_timeout error_msg then
     s1 <- get_self ;;
     if error_count s1 mod 20 =? 1 then
       s2 <- get_self ;;
       log WARNING ("Read timeout (x" +++ fmt (PInt (error_count s2)) +++ "): "
                    +++ error_msg)
     else Ret tt
   else
     log ERROR ("Read measurement failed: " +++ error_msg)) ;;
  Ret (error_response error_msg).

Definition read : prog pyval :=
  s <- get_self ;;
  set_self (set_read_count (read_count s + 1)) ;;
  start_time <- clock ;;
  try_except (take_measurement start_time) read_failed.

(** *** [voltage_sweep] *)

(** [a + f] for a float [f]. A value that is not a number cannot reach the
    addition of the sweep: the subtraction before it has rejected it. *)
Definition py_add_float (a : pyval) (f : float) : result float :=
  match as_num a with
  | Some x => ebind (num_to_float x) (fun xf => inr (xf + f)%float)
  | None => inl (operand_error "+" a (PFloat f))
  end.

(** [start_v + i * (stop_v - start_v) / (steps - 1)], operands evaluated
    from left to right. *)
Definition sweep_level (start_v stop_v steps : pyval) (i : Z) : result float :=
  ebind (py_sub stop_v start_v) (fun span =>
  ebind (num_mul (NInt i) span) (fun scaled =>
  ebind (py_sub steps (PInt 1)) (fun intervals =>
  ebind (num_truediv scaled intervals) (fun offset =>
  py_add_float start_v offset)))).

(** A list comprehension whose element expression may raise. *)
Fixpoint comprehension {A B : Type} (f : A -> result B) (l : list A)
  : result (list B) :=
  match l with
  | [] => inr []
  | a :: r =>
      ebind (f a) (fun b => ebind (comprehension f r) (fun bs => inr (b :: bs)))
  end.

Definition sweep_voltages (start_v stop_v steps : pyval)
  : result (list float) :=
  ebind (py_range steps) (comprehension (sweep_level start_v stop_v steps)).

(** One pass of the [for voltage in voltages] loop: the entry appended to
    [results]. *)
Definition sweep_step (delay : pyval) (voltage : float) : prog pyval :=
  write (PStr (":SOUR:VOLT " +++ fmt (PFloat voltage))) ;;
  sleep delay ;;
  reading <- query (PStr ":READ?") ;;
  let values := split comma (strip reading) in
  measured_voltage <- lift (float_at values 0) ;;
  measured_current <- lift (float_at values 1) ;;
  stamp <- date_now ;;
  Ret (PDict [("set_voltage", PFloat voltage);
              ("measured_voltage", PFloat measured_voltage);
              ("measured_current", PFloat measured_current);
              ("timestamp", PStr stamp)]).

Fixpoint sweep_loop (delay : pyval) (voltages : list float)
  (results : list pyval) : prog (list pyval) :=
  match voltages with
  | [] => Ret results
  | voltage :: rest =>
      entry <- sweep_step delay voltage ;;
      sweep_loop delay rest (results ++ [entry])
  end.

Definition sweep_setup (compliance : pyval) : prog unit :=
  write (PStr ":SOUR:FUNC VOLT") ;;
  write (PStr ":SOUR:VOLT:MODE FIXED") ;;
  write (PStr (":SENS:FUNC " +++ quoted "CURR")) ;;
  write (PStr (":SENS:CURR:PROT " +++ fmt compliance)) ;;
  write (PStr ":OUTP ON").

Definition voltage_sweep (cmd_data : pyval) : prog pyval :=
  start_v <- lift (py_get cmd_data "start" (PInt 0)) ;;
  stop_v <- lift (py_get cmd_data "stop" (PInt 5)) ;;
  steps <- lift (py_get cmd_data "steps" (PInt 11)) ;;
  compliance <- lift (py_get cmd_data "compliance" (PFloat 0.1)) ;;
  delay <- lift (py_get cmd_data "delay" (PFloat 0.1)) ;;
  sweep_setup compliance ;;
  voltages <- lift (sweep_voltages start_v stop_v steps) ;;
  results <- sweep_loop delay voltages [] ;;
  write (PStr ":OUTP OFF") ;;
  Ret (success_data (PList results)).

(** *** The other branches *)

Definition write_command (cmd_data : pyval) : prog pyval :=
  scpi_cmd <- lift (py_get cmd_data "command" (PStr EmptyString)) ;;
  write scpi_cmd ;;
  Ret (success_message ("Command '" +++ fmt scpi_cmd +++ "' executed")).

Definition query_command (cmd_data : pyval) : prog pyval :=
  scpi_cmd <- lift (py_get cmd_data "command" (PStr EmptyString)) ;;
  reply <- query scpi_cmd ;;
  Ret (success_data (PStr (strip reply))).

Definition setup_voltage_source (cmd_data : pyval) : prog pyval :=
  voltage <- lift (py_get cmd_data "voltage" (PInt 0)) ;;
  range_val <- lift (py_get cmd_data "range" (PStr "AUTO")) ;;
  compliance <- lift (py_get cmd_data "compliance" (PFloat 0.1)) ;;
  write (PStr ":SOUR:FUNC VOLT") ;;
  write (PStr ":SOUR:VOLT:MODE FIXED") ;;
  write (PStr (":SOUR:VOLT " +++ fmt voltage)) ;;
  (if negb (str_eq range_val "AUTO")
   then write (PStr (":SOUR:VOLT:RANG " +++ fmt range_val))
   else Ret tt) ;;
  write (PStr (":SENS:FUNC " +++ quoted "CURR")) ;;
  write (PStr (":SENS:CURR:PROT " +++ fmt compliance)) ;;
  Ret (success_message ("Voltage source setup: " +++ fmt voltage
                        +++ "V, compliance: " +++ fmt compliance +++ "A")).

Definition setup_current_source (cmd_data : pyval) : prog pyval :=
  current <- lift (py_get cmd_data "current" (PInt 0)) ;;
  range_val <- lift (py_get cmd_data "range" (PStr "AUTO")) ;;
  compliance <- lift (py_get cmd_data "compliance" (PInt 10)) ;;
  write (PStr ":SOUR:FUNC CURR") ;;
  write (PStr ":SOUR:CURR:MODE FIXED") ;;
  write (PStr (":SOUR:CURR " +++ fmt current)) ;;
  (if negb (str_eq range_val "AUTO")
   then write (PStr (":SOUR:CURR:RANG " +++ fmt range_val))
   else Ret tt) ;;
  write (PStr (":SENS:FUNC " +++ quoted "VOLT")) ;;
  write (PStr (":SENS:VOLT:PROT " +++ fmt compliance)) ;;
  Ret (success_message ("Current source setup: " +++ fmt current
                        +++ "A, compliance: " +++ fmt compliance +++ "V")).

Definition output (cmd_data : pyval) : prog pyval :=
  state <- lift (py_get cmd_data "state" (PStr "OFF")) ;;
  write (PStr (":OUTP " +++ fmt state)) ;;
  Ret (success_message ("Output " +++ fmt state)).

Definition get_status : prog pyval :=
  idn <- query (PStr "*IDN?") ;;
  output_state <- query (PStr ":OUTP?") ;;
  source_func <- query (PStr ":SOUR:FUNC?") ;;
  stamp <- date_now ;;
  s1 <- get_self ;;
  s2 <- get_self ;;
  s3 <- get_self ;;
  Ret (success_data (PDict
    [("instrument", PStr (strip idn));
     ("output", PStr (if String.eqb (strip output_state) "1"
                      then "ON" else "OFF"));
     ("source_function", PStr (strip source_func));
     ("timestamp", PStr stamp);
     ("fast_mode", fast_mode s1);
     ("read_count", PInt (read_count s2));
     ("error_count", PInt (error_count s3))])).

Definition reset : prog pyval :=
  write (PStr "*RST") ;;
  write (PStr "*CLS") ;;
  s <- get_self ;;
  (if truthy (fast_mode s)
   then Sleep (PFloat 0.1) (write_all fast_settings)
   else Ret tt) ;;
  Ret (success_message "Instrument reset").

Definition set_fast_mode_command (cmd_data : pyval) : prog pyval :=
  enabled <- lift (py_get cmd_data "enabled" (PBool true)) ;;
  set_self (set_fast_mode enabled) ;;
  s <- get_self ;;
  (if truthy (fast_mode s)
   then write_all fast_settings
   else write_all [":SYST:AZER ON"; ":DISP:ENAB ON"]) ;;
  s' <- get_self ;;
  Ret (success_message ("Fast mode " +++ (if truthy (fast_mode s')
                                          then "enabled" else "disabled"))).

(** *** [process_command] *)

(** The [if]/[elif] chain inside the [try]. *)
Definition dispatch (cmd_type cmd_data : pyval) : prog pyval :=
  if str_eq cmd_type "write" then write_command cmd_data
  else if str_eq cmd_type "query" then query_command cmd_data
  else if str_eq cmd_type "read" then read
  else if str_eq cmd_type "setup_voltage_source"
  then setup_voltage_source cmd_data
  else if str_eq cmd_type "setup_current_source"
  then setup_current_source cmd_data
  else if str_eq cmd_type "output" then output cmd_data
  else if str_eq cmd_type "voltage_sweep" then voltage_sweep cmd_data
  else if str_eq cmd_type "get_status" then get_status
  else if str_eq cmd_type "reset" then reset
  else if str_eq cmd_type "set_fast_mode" then set_fast_mode_command cmd_data
  else Ret (error_response ("Unknown command type: " +++ fmt cmd_type)).

Definition process_command (command : pyval) : prog pyval :=
  cmd_type <- lift (py_get command "type" (PStr EmptyString)) ;;
  cmd_data <- lift (py_get command "data" (PDict [])) ;;
  try_except (dispatch cmd_type cmd_data)
    (fun e => Ret (error_response (exn_str e))).

(** *** [handle_client] *)

(** What the body of the [while] loop does with a decoded command. *)
Definition serve (address command : pyval) : prog unit :=
  try_except
    (cmd_type <- lift (py_get command "type" PNone) ;;
     (if negb (str_eq cmd_type "read")
      then log INFO ("Command from " +++ fmt address +++ ": " +++ fmt command)
      else Ret tt) ;;
     response <- process_command command ;;
     send response)
    (fun e =>
       send (error_response (exn_str e)) ;;
       log ERROR ("Error processing command: " +++ exn_str e)).

(** The [while self.running] loop over what the socket delivers; the peer
    has closed the connection when the list is used up. An exception raised
    by [recv], or by a [send] inside an [except] clause, leaves the loop. *)
Fixpoint session (address : pyval) (inbox : list incoming) : prog unit :=
  s <- get_self ;;
  if negb (running s) then Ret tt else
  match inbox with
  | [] => Ret tt
  | RecvRaises e :: _ => Raise e
  | RecvEmpty :: _ => Ret tt
  | RecvInvalid :: rest =>
      send (error_response "Invalid JSON format") ;;
      session address rest
  | RecvJson command :: rest =>
      serve address command ;;
      session address rest
  end.

(** The list [self.clients] and the closing of the socket are left out. *)
Definition handle_client (address : pyval) (inbox : list incoming)
  : prog unit :=
  try_except (session address inbox)
    (fun e => log ERROR ("Client " +++ fmt address +++ " error: "
                         +++ exn_str e)) ;;
  log INFO ("Client " +++ fmt address +++ " disconnected").

(** *** [stats_reporter] *)

(** One pass of the loop of the statistics thread. *)
Definition stats_tick : prog unit :=
  Sleep (PInt 30)
    (s <- get_self ;;
     if 0 <? read_count s then
       now <- clock ;;
       s1 <- get_self ;;
       let elapsed := (now - last_stats_time s1)%float in
       s2 <- get_self ;;
       rate <- lift (num_truediv (NInt (read_count s2)) (NFloat elapsed)) ;;
       s3 <- get_self ;;
       error_rate <-
         (if 0 <? read_count s3 then
            s4 <- get_self ;;
            s5 <- get_self ;;
            ratio <- lift (int_truediv (error_count s4) (read_count s5)) ;;
            Ret (PFloat (ratio * 100)%float)
          else Ret (PInt 0)) ;;
       log INFO ("Performance: " +++ py_format ".1f" (PFloat rate)
                 +++ " reads/sec, " +++ py_format ".1f" error_rate
                 +++ "% errors") ;;
       set_self (set_read_count 0) ;;
       set_self (set_error_count 0) ;;
       now' <- clock ;;
       set_self (set_last_stats_time now')
     else Ret tt).

(** [rounds] passes of [while self.running]. *)
Fixpoint stats_reporter (rounds : nat) : prog unit :=
  match rounds with
  | O => Ret tt
  | S n =>
      s <- get_self ;;
      if running s then stats_tick ;; stats_reporter n else Ret tt
  end.

End Server.

(** ** A reference runtime

    An implementation of the three runtime functions, used to run the model
    on concrete requests: [float] on decimal literals, [str] and the [.1f]
    format of values, and the argument check of [time.sleep]. The theorems
    below hold for every runtime; the examples are computed with this one. *)

Module Runtime.

Definition code (c : ascii) : nat := nat_of_ascii c.
Definition is_digit (c : ascii) : bool :=
  ((48 <=? code c) && (code c <=? 57))%nat.
Definition digit (c : ascii) : Z := Z.of_nat (code c - 48).
Definition is_char (n : nat) (c : ascii) : bool := (code c =? n)%nat.

(** *** [float(s)] *)

(** The blanks [float] skips around a literal. *)
Definition float_space (c : ascii) : bool :=
  (((9 <=? code c) && (code c <=? 13)) || (code c =? 32) || (code c =? 133)
   || (code c =? 160))%nat.

Fixpoint drop_while (f : ascii -> bool) (l : list ascii) : list ascii :=
  match l with
  | c :: r => if f c then drop_while f r else l
  | [] => []
  end.

Definition trim (l : list ascii) : list ascii :=
  rev (drop_while float_space (rev (drop_while float_space l))).

(** An underscore stands between two digits. *)
Fixpoint underscores_ok (after_digit : bool) (l : list ascii) : bool :=
  match l with
  | [] => true
  | c :: r =>
      if is_char 95 c
      then after_digit
           && match r with d :: _ => is_digit d | [] => false end
           && underscores_ok false r
      else underscores_ok (is_digit c) r
  end.

(** Leading digits: their value after [acc], how many, and what follows. *)
Fixpoint digits (l : list ascii) (acc : Z) (n : Z) : Z * Z * list ascii :=
  match l with
  | c :: r => if is_digit c then digits r (10 * acc + digit c) (n + 1)
              else (acc, n, l)
  | [] => (acc, n, [])
  end.

(** The exponent part, up to the end of the literal. *)
Definition exponent (l : list ascii) : option Z :=
  match l with
  | [] => Some 0
  | c :: r =>
      if is_char 101 c || is_char 69 c then
        let '(neg, r') :=
          match r with
          | s :: t => if is_char 45 s then (true, t)
                      else if is_char 43 s then (false, t) else (false, r)
          | [] => (false, r)
          end in
        match digits r' 0 0 with
        | (v, n, []) => if 0 <? n then Some (if neg then - v else v) else None
        | _ => None
        end
      else None
  end.

(** The double nearest to [m * 10 ^ e10], for [m > 0]. *)
Definition decimal (neg : bool) (m e10 : Z) : spec_float :=
  let sm := if neg then - m else m in
  if m =? 0 then S754_zero neg
  else if 0 <=? e10 then binary_normalize prec emax (sm * 10 ^ e10) 0 false
  else SFdiv prec emax (Z2SF sm) (Z2SF (10 ^ (- e10))).

Definition number (neg : bool) (l : list ascii) : option float :=
  if underscores_ok false l then
    let l := filter (fun c => negb (is_char 95 c)) l in
    let '(ip, ni, r1) := digits l 0 0 in
    let '(m, nf, r2) :=
      match r1 with
      | c :: r => if is_char 46 c then digits r ip 0 else (ip, 0, r1)
      | [] => (ip, 0, r1)
      end in
    if ni + nf =? 0 then None
    else match exponent r2 with
         | Some ex => Some (SF2Prim (decimal neg m (ex - nf)))
         | None => None
         end
  else None.

Definition literal (l : list ascii) : option float :=
  let '(neg, body) :=
    match l with
    | s :: t => if is_char 45 s then (true, t)
                else if is_char 43 s then (false, t) else (false, l)
    | [] => (false, l)
    end in
  let word := lower (string_of_list_ascii body) in
  if String.eqb word "inf" || String.eqb word "infinity"
  then Some (if neg then neg_infinity else infinity)
  else if String.eqb word "nan" then Some nan
  else number neg body.

(** *** [repr] of a string *)

Definition hex_digit (n : nat) : ascii :=
  ascii_of_nat (if (n <? 10)%nat then 48 + n else 87 + n).

Definition printable (c : ascii) : bool :=
  (((32 <=? code c) && (code c <? 127))
   || ((161 <=? code c) && negb (code c =? 173)))%nat.

Definition escape (quote : ascii) (c : ascii) : string :=
  let bs := ascii_of_nat 92 in
  if Ascii.eqb c quote || Ascii.eqb c bs then String bs (String c EmptyString)
  else if is_char 9 c then String bs "t"
  else if is_char 10 c then String bs "n"
  else if is_char 13 c then String bs "r"
  else if printable c then String c EmptyString
  else String bs (String "x" (String (hex_digit (code c / 16))
                                (String (hex_digit (code c mod 16))
                                   EmptyString))).

Definition repr_str (s : string) : string :=
  let sq := ascii_of_nat 39 in
  let dq := ascii_of_nat 34 in
  let has c := existsb (Ascii.eqb c) (list_ascii_of_string s) in
  let quote := if has sq && negb (has dq) then dq else sq in
  String quote
    (concat EmptyString (map (escape quote) (list_ascii_of_string s))
     +++ String quote EmptyString).

Definition float_error (s : string) : exn :=
  Exn "ValueError" ("could not convert string to float: " +++ repr_str s).

Definition py_float (s : string) : result float :=
  match literal (trim (list_ascii_of_string s)) with
  | Some f => inr f
  | None => inl (float_error s)
  end.

(** *** [str] of a value *)

Definition str_int (z : Z) : string :=
  DecimalString.NilZero.string_of_int (Z.to_int z).

Fixpoint zeros (n : nat) : string :=
  match n with
  | O => EmptyString
  | S k => String "0" (zeros k)
  end.

(** The positive rational [n / d] as a double. *)
Definition ratio (n d : Z) : float :=
  SF2Prim (SFdiv prec emax (Z2SF n) (Z2SF d)).

(** The largest [k] with [10 ^ k <= n / d], searched upwards from a lower
    estimate. *)
Definition pow10_le (k n d : Z) : bool :=
  if 0 <=? k then d * 10 ^ k <=? n else d <=? n * 10 ^ (- k).

Fixpoint search_log10 (fuel : nat) (k n d : Z) : Z :=
  match fuel with
  | O => k
  | S f => if pow10_le (k + 1) n d then search_log10 f (k + 1) n d else k
  end.

Definition floor_log10 (n d : Z) : Z :=
  search_log10 8 ((Z.log2 n - Z.log2 d - 1) * 30102 / 100000 - 1) n d.

(** The shortest digits [c] and exponent [s] with [c * 10 ^ s] read back as
    [x = n / d]; of two candidates of one length, the nearer, the even one
    on a tie. *)
Fixpoint shortest (fuel : nat) (p : Z) (x : float) (n d e10 : Z) : Z * Z :=
  let s := e10 - p + 1 in
  let '(sn, sd) :=
    if 0 <=? s then (n, d * 10 ^ s) else (n * 10 ^ (- s), d) in
  let lo := sn / sd in
  let back c :=
    if 0 <=? s then ratio (c * 10 ^ s) 1 else ratio c (10 ^ (- s)) in
  let lo_ok := (0 <? lo) && PrimFloat.eqb (back lo) x in
  let hi_ok := PrimFloat.eqb (back (lo + 1)) x in
  let twice := 2 * (sn - lo * sd) in
  let nearer_lo := (twice <? sd) || ((twice =? sd) && Z.even lo) in
  match fuel with
  | O => (lo, s)
  | S f =>
      if lo_ok && (nearer_lo || negb hi_ok) then (lo, s)
      else if hi_ok then (lo + 1, s)
      else shortest f (p + 1) x n d e10
  end.

Fixpoint strip_zeros (fuel : nat) (c s : Z) : Z * Z :=
  match fuel with
  | O => (c, s)
  | S f => if (c mod 10 =? 0) && negb (c =? 0)
           then strip_zeros f (c / 10) (s + 1) else (c, s)
  end.

Definition two_digits (z : Z) : string :=
  if z <? 10 then String "0" (str_int z) else str_int z.

(** [repr] of a positive finite double [m * 2 ^ e]. *)
Definition repr_finite (x : float) (m : positive) (e : Z) : string :=
  let '(n, d) :=
    if 0 <=? e then (Zpos m * 2 ^ e, 1) else (Zpos m, 2 ^ (- e)) in
  let '(c, s) := shortest 17 1 x n d (floor_log10 n d) in
  let '(c, s) := strip_zeros 20 c s in
  let ds := str_int c in
  let len := Z.of_nat (String.length ds) in
  let decpt := len + s in
  if (decpt <=? -4) || (16 <? decpt) then
    let mant := match ds with
                | String a EmptyString => ds
                | String a r => String a (String "." r)
                | EmptyString => ds
                end in
    mant +++ "e" +++ (if decpt - 1 <? 0 then "-" else "+")
    +++ two_digits (Z.abs (decpt - 1))
  else if decpt <=? 0 then "0." +++ zeros (Z.to_nat (- decpt)) +++ ds
  else if len <=? decpt then ds +++ zeros (Z.to_nat (decpt - len)) +++ ".0"
  else substring 0 (Z.to_nat decpt) ds +++ "."
       +++ substring (Z.to_nat decpt) (Z.to_nat (len - decpt)) ds.

Definition repr_float (x : float) : string :=
  match Prim2SF x with
  | S754_nan => "nan"
  | S754_infinity neg => if neg then "-inf" else "inf"
  | S754_zero neg => if neg then "-0.0" else "0.0"
  | S754_finite neg m e =>
      (if neg then "-" else EmptyString) +++ repr_finite (abs x) m e
  end.

(** [format(x, '.1f')]: one decimal, the exact value rounded half to even. *)
Definition fixed1 (x : float) : string :=
  match Prim2SF x with
  | S754_nan => "nan"
  | S754_infinity neg => if neg then "-inf" else "inf"
  | S754_zero neg => if neg then "-0.0" else "0.0"
  | S754_finite neg m e =>
      let '(n, d) :=
        if 0 <=? e then (10 * Zpos m * 2 ^ e, 1)
        else (10 * Zpos m, 2 ^ (- e)) in
      let q := n / d in
      let r := n - q * d in
      let tenths :=
        if (d <? 2 * r) || ((2 * r =? d) && Z.odd q) then q + 1 else q in
      (if neg then "-" else EmptyString)
      +++ str_int (tenths / 10) +++ "." +++ str_int (tenths mod 10)
  end.

Fixpoint join (sep : string) (l : list string) : string :=
  match l with
  | [] => EmptyString
  | [a] => a
  | a :: r => a +++ sep +++ join sep r
  end.

Fixpoint repr (v : pyval) : string :=
  match v with
  | PNone => "None"
  | PBool b => if b then "True" else "False"
  | PInt z => str_int z
  | PFloat f => repr_float f
  | PStr s => repr_str s
  | PList l => "[" +++ join ", " (map repr l) +++ "]"
  | PDict d =>
      "{" +++ join ", " (map (fun kv => repr_str (fst kv) +++ ": "
                                        +++ repr (snd kv)) d) +++ "}"
  end.

Definition str (v : pyval) : string :=
  match v with
  | PStr s => s
  | _ => repr v
  end.

(** The two format specifications the server uses: none, and [.1f] on a
    number. *)
Definition py_format (spec : string) (v : pyval) : string :=
  if String.eqb spec ".1f" then
    match v with
    | PFloat f => fixed1 f
    | PInt z => match int_to_float z with
                | inr f => fixed1 f
                | inl _ => str v
                end
    | _ => str v
    end
  else str v.

(** *** [time.sleep] *)

(** A delay has to be a number, not NaN and not negative. *)
Definition py_sleep (d : pyval) : option exn :=
  match as_num d with
  | None => Some (Exn "TypeError"
                    ("'" +++ type_name d
                     +++ "' object cannot be interpreted as an integer"))
  | Some (NInt z) =>
      if z <? 0 then Some (Exn "ValueError" "sleep length must be non-negative")
      else None
  | Some (NFloat f) =>
      if negb (PrimFloat.eqb f f)
      then Some (Exn "ValueError" "Invalid value NaN (not a number)")
      else if (f <? 0)%float
      then Some (Exn "ValueError" "sleep length must be non-negative")
      else None
  end.

End Runtime.

(** ** Threads

    [start_server] hands every accepted connection to a thread of its own
    running [handle_client], and nothing in the server takes a lock around
    [process_command]: between two steps of one thread any other thread may
    take a step. A machine holds the programs of the threads, the world they
    share and the instrument calls made so far, each with the thread that
    made it. *)

Record machine : Type := Machine {
  threads : list (prog pyval);
  shared : world;
  calls : list (nat * icall)
}.

Section Threads.

Variable E : env.

(** One step of a program; [None] when it has returned or raised. *)
Definition step {A : Type} (p : prog A) (w : world)
  : option (prog A * world) :=
  match p with
  | Ret _ => None
  | Raise _ => None
  | Call c k => Some (k (instrument E (trace w) c), record (EvCall c) w)
  | Sleep d k => Some (k, record (EvSleep d) w)
  | Clock k =>
      let t := time_time E (trace w) in Some (k t, record (EvClock t) w)
  | Date k =>
      let s := isoformat_now E (trace w) in Some (k s, record (EvDate s) w)
  | Log l m k => Some (k, record (EvLog l m) w)
  | GetSelf k => Some (k (self w), w)
  | SetSelf f k => Some (k, World (f (self w)) (trace w))
  | Send r k => Some (k (socket_send E (trace w) r), record (EvSend r) w)
  end.

(** The instrument call a program is about to make. *)
Definition next_call {A : Type} (p : prog A) : list icall :=
  match p with
  | Call c _ => [c]
  | _ => []
  end.

Fixpoint replace {A : Type} (i : nat) (a : A) (l : list A) : list A :=
  match l, i with
  | [], _ => []
  | _ :: r, O => a :: r
  | b :: r, S j => b :: replace j a r
  end.

(** Thread [i] takes a step; nothing happens when it has finished or does
    not exist. *)
Definition turn (i : nat) (m : machine) : machine :=
  match nth_error (threads m) i with
  | Some p =>
      match step p (shared m) with
      | Some (p', w') =>
          Machine (replace i p' (threads m)) w'
            (calls m ++ map (pair i) (next_call p))
      | None => m
      end
  | None => m
  end.

(** A schedule names the thread that moves at each instant. *)
Fixpoint sched (order : list nat) (m : machine) : machine :=
  match order with
  | [] => m
  | i :: rest => sched rest (turn i m)
  end.

End Threads.

(** The threads that made the calls, a run of calls by one thread counted
    once. *)
Fixpoint owners (l : list nat) : list nat :=
  match l with
  | a :: r =>
      match r with
      | b :: _ => if (a =? b)%nat then owners r else a :: owners r
      | [] => [a]
      end
  | [] => []
  end.

Fixpoint distinct (l : list nat) : bool :=
  match l with
  | [] => true
  | a :: r => negb (existsb (Nat.eqb a) r) && distinct r
  end.

(** The calls reach the instrument one whole command after the other: no
    thread comes back after another one has made a call. *)
Definition serialized (cs : list (nat * icall)) : bool :=
  distinct (owners (map fst cs)).

(** ** Start-up and shutdown *)

Definition set_running (b : bool) (s : server) : server :=
  Server (fast_mode s) b (read_count s) (error_count s) (last_stats_time s).

(** [connect_instrument]. [opened] is what creating the resource manager and
    opening the resource did: nothing, or the exception raised. The timeout
    assigned to the handle is left out. Whatever is raised is logged and
    raised again. *)
Definition connect_instrument (opened : option exn) : prog unit :=
  try_except
    (of_outcome opened ;;
     s <- get_self ;;
     (if truthy (fast_mode s)
      then write (PStr ":SYST:AZER OFF") ;; write (PStr ":DISP:ENAB OFF")
      else Ret tt) ;;
     idn <- query (PStr "*IDN?") ;;
     log INFO ("Connected to: " +++ strip idn) ;;
     write (PStr "*RST") ;;
     write (PStr "*CLS") ;;
     s' <- get_self ;;
     if truthy (fast_mode s')
     then log INFO "Fast mode enabled - optimized for high-rate polling" ;;
          write (PStr ":SENS:FUNC:CONC ON") ;;
          write (PStr ":FORM:ELEM VOLT,CURR")
     else Ret tt)
    (fun e =>
       log ERROR ("Failed to connect to instrument: " +++ exn_str e) ;;
       Raise e).

(** [__init__]: the attributes of the new object, then the connection. *)
Definition init (fast : pyval) (opened : option exn) : prog unit :=
  set_self (set_fast_mode fast) ;;
  set_self (set_running false) ;;
  set_self (set_read_count 0) ;;
  set_self (set_error_count 0) ;;
  now <- clock ;;
  set_self (set_last_stats_time now) ;;
  connect_instrument opened.

(** [stop_server], the closing of the listening socket left out. *)
Definition stop_server : prog unit := set_self (set_running false).

(** [cleanup], on a server whose instrument handle exists (it does as soon as
    [__init__] has returned). The closing of the sockets and of the handle is
    left out; the bare [except] swallows whatever the writes raise. *)
Definition cleanup : prog unit :=
  set_self (set_running false) ;;
  try_except
    (write (PStr ":OUTP OFF") ;;
     s <- get_self ;;
     if truthy (fast_mode s)
     then write (PStr ":SYST:AZER ON") ;; write (PStr ":DISP:ENAB ON")
     else Ret tt)
    (fun _ => Ret tt) ;;
  log INFO "Server cleanup completed".

(** ** Reading a run

    What the properties below say about a response and about a trace. *)

(** The ["status"] entry of a response. *)
Definition status (response : pyval) : pyval :=
  match response with
  | PDict d => dict_get d "status" PNone
  | _ => PNone
  end.

Definition succeeded (response : pyval) : bool :=
  str_eq (status response) "success".
Definition failed (response : pyval) : bool :=
  str_eq (status response) "error".

(** The instrument-facing part of a trace, and its log records. *)
Fixpoint instrument_calls (evs : list event) : list icall :=
  match evs with
  | [] => []
  | EvCall c :: r => c :: instrument_calls r
  | _ :: r => instrument_calls r
  end.

Fixpoint log_records (evs : list event) : list (level * string) :=
  match evs with
  | [] => []
  | EvLog l m :: r => (l, m) :: log_records r
  | _ :: r => log_records r
  end.

Definition is_query (ev : event) : bool :=
  match ev with
  | EvCall (IQuery _) => true
  | _ => false
  end.

Definition wr (cmd : string) : event := EvCall (IWrite (PStr cmd)).
Definition qu (cmd : string) : event := EvCall (IQuery (PStr cmd)).

(** A request as the client builds it. *)
Definition request (type : string) (data : list (string * pyval)) : pyval :=
  PDict [("type", PStr type); ("data", PDict data)].

(** The decoded request names this command type. *)
Definition has_type (d : list (string * pyval)) (type : string) : Prop :=
  dict_get d "type" (PStr EmptyString) = PStr type.


(** The history at which the query of a [read] reaches the instrument (the
    clock has been read once), the instrument's answer to it, and the fields
    the server cuts the answer into. *)
Definition read_asked (E : env) (w : world) : list event :=
  trace w ++ [EvClock (time_time E (trace w))].
Definition read_reply (E : env) (w : world) : result string :=
  instrument E (read_asked E w) (IQuery (PStr ":READ?")).
Definition fields (reply : string) : list string := split comma (strip reply).

(** The attempt of a [read]: the body of its inner [try], run where the
    command runs it, after the read has been counted and the clock read. It
    comes to the measurement, or to the exception that makes the read fail. *)
Definition read_attempt_world (E : env) (w : world) : world :=
  World (set_read_count (read_count (self w) + 1) (self w)) (read_asked E w).
Definition read_attempt (py_float : string -> result float) (E : env)
  (w : world) : result pyval :=
  fst (run E (take_measurement py_float (time_time E (trace w)))
         (read_attempt_world E w)).

(** The log records a failed read leaves: [errors] is the error counter after
    the failure has been counted, [msg] the text of the exception. *)
Definition read_failure_log (py_format : string -> pyval -> string)
  (errors : Z) (msg : string) : list (level * string) :=
  if is_timeout msg then
    if errors mod 20 =? 1
    then [(WARNING, "Read timeout (x" +++ py_format EmptyString (PInt errors)
                    +++ "): " +++ msg)]
    else []
  else [(ERROR, "Read measurement failed: " +++ msg)].

(** Programs run one after the other, as the commands of one session are;
    their results in order. *)
Fixpoint in_turn {A : Type} (ps : list (prog A)) : prog (list A) :=
  match ps with
  | [] => Ret []
  | p :: rest => a <- p ;; others <- in_turn rest ;; Ret (a :: others)
  end.


(** The time the statistics thread measures at a tick that starts in [w]. *)
Definition tick_elapsed (E : env) (w : world) : float :=
  (time_time E (trace w ++ [EvSleep (PInt 30)])
   - last_stats_time (self w))%float.

(** The ["set_voltage"] entry of a sweep result. *)
Definition set_voltage (entry : pyval) : pyval :=
  match entry with
  | PDict m => dict_get m "set_voltage" PNone
  | _ => PNone
  end.

(** The instrument calls of a sweep: those that configure the source and
    switch the output on, and those of the step at one level. *)
Definition setup_calls (py_format : string -> pyval -> string)
  (compliance : pyval) : list icall :=
  [IWrite (PStr ":SOUR:FUNC VOLT");
   IWrite (PStr ":SOUR:VOLT:MODE FIXED");
   IWrite (PStr (":SENS:FUNC " +++ quoted "CURR"));
   IWrite (PStr (":SENS:CURR:PROT " +++ py_format EmptyString compliance));
   IWrite (PStr ":OUTP ON")].

Definition level_command (py_format : string -> pyval -> string)
  (voltage : float) : pyval :=
  PStr (":SOUR:VOLT " +++ py_format EmptyString (PFloat voltage)).

Definition step_calls (py_format : string -> pyval -> string)
  (voltage : float) : list icall :=
  [IWrite (level_command py_format voltage); IQuery (PStr ":READ?")].

Definition output_off : icall := IWrite (PStr ":OUTP OFF").

(** The levels of a sweep from 0 to 5 in 11 points. *)
Definition levels_0_5_11 : list float :=
  [0; 0.5; 1; 1.5; 2; 2.5; 3; 3.5; 4; 4.5; 5]%float.

Fixpoint increasing (l : list float) : bool :=
  match l with
  | a :: r =>
      match r with
      | b :: _ => (a <? b)%float && increasing r
      | [] => true
      end
  | [] => true
  end.

(** The rational a finite double stands for. *)
Definition exact_value (f : float) : option Q :=
  match Prim2SF f with
  | S754_zero _ => Some 0%Q
  | S754_finite neg m e =>
      let q := if 0 <=? e then inject_Z (Zpos m * 2 ^ e)
               else Qmake (Zpos m) (Z.to_pos (2 ^ (- e))) in
      Some (if neg then Qopp q else q)
  | _ => None
  end.

(** Level [i] of the list is exactly [start + i * (stop - start) / n]. *)
Fixpoint evenly_spaced (start stop n : Z) (i : Z) (l : list float) : bool :=
  match l with
  | [] => true
  | v :: r =>
      match exact_value v with
      | Some q =>
          Qeq_bool q (inject_Z start
                      + inject_Z (i * (stop - start)) / inject_Z n)%Q
      | None => false
      end && evenly_spaced start stop n (i + 1) r
  end.

(** [at_most n p]: whatever the environment answers, [p] makes at most [n]
    instrument calls. *)
Inductive at_most {A : Type} : nat -> prog A -> Prop :=
| am_ret (n : nat) (a : A) : at_most n (Ret a)
| am_raise (n : nat) (e : exn) : at_most n (Raise e)
| am_call (n : nat) (c : icall) (k : result string -> prog A) :
    (forall r, at_most n (k r)) -> at_most (S n) (Call c k)
| am_sleep (n : nat) (d : pyval) (k : prog A) :
    at_most n k -> at_most n (Sleep d k)
| am_clock (n : nat) (k : float -> prog A) :
    (forall t, at_most n (k t)) -> at_most n (Clock k)
| am_date (n : nat) (k : string -> prog A) :
    (forall s, at_most n (k s)) -> at_most n (Date k)
| am_log (n : nat) (l : level) (msg : string) (k : prog A) :
    at_most n k -> at_most n (Log l msg k)
| am_get (n : nat) (k : server -> prog A) :
    (forall s, at_most n (k s)) -> at_most n (GetSelf k)
| am_set (n : nat) (f : server -> server) (k : prog A) :
    at_most n k -> at_most n (SetSelf f k)
| am_send (n : nat) (r : pyval) (k : option exn -> prog A) :
    (forall o, at_most n (k o)) -> at_most n (Send r k).

(** The command types that make one instrument call. *)
Definition single_call (type : string) : Prop :=
  type = "write" \/ type = "query" \/ type = "read" \/ type = "output".

(** How many of the calls thread [i] made. *)
Definition calls_of (i : nat) (cs : list (nat * icall)) : nat :=
  List.length (filter (fun c => (fst c =? i)%nat) cs).

(** Two threads, each with a bound on the calls it has made and may still
    make. *)
Definition within (m : machine) (b0 b1 : nat) : Prop :=
  exists p0 p1 n0 n1,
    threads m = [p0; p1]
    /\ at_most n0 p0 /\ at_most n1 p1
    /\ (calls_of 0 (calls m) + n0 <= b0)%nat
    /\ (calls_of 1 (calls m) + n1 <= b1)%nat
    /\ Forall (fun c => (fst c < 2)%nat) (calls m).

(** ** Environments to run the model in *)

Module Bench.

(** The clock advances by a second at every event. *)
Definition seconds (h : list event) : float :=
  match int_to_float (1000 + Z.of_nat (List.length h)) with
  | inr t => t
  | inl _ => infinity
  end.

Definition today (h : list event) : string := "2025-01-01T12:00:00".

Definition queries_so_far (h : list event) : nat :=
  List.length (filter is_query h).

(** An instrument that accepts every write and answers every query with
    [reply]. *)
Definition answering (reply : string) : env :=
  Env (fun _ c => match c with
                  | IWrite _ => inr EmptyString
                  | IQuery _ => inr reply
                  end)
      seconds today (fun _ _ => None).

(** The same, except that query number [n] (from 0) raises [e]. *)
Definition failing_at (n : nat) (e : exn) (reply : string) : env :=
  Env (fun h c => match c with
                  | IWrite _ => inr EmptyString
                  | IQuery _ => if (queries_so_far h =? n)%nat
                                then inl e else inr reply
                  end)
      seconds today (fun _ _ => None).

Definition timeout : exn :=
  Exn "VisaIOError"
    "VI_ERROR_TMO (-1073807339): Timeout expired before operation completed.".

(** The server after [__init__], with nothing sent yet. *)
Definition boot (fast : bool) : world :=
  World (Server (PBool fast) true 0 0 1000) [].

Definition program (command : pyval) : prog pyval :=
  process_command Runtime.py_float Runtime.py_format Runtime.py_sleep command.

Definition process (E : env) (command : pyval) (w : world)
  : result pyval * world :=
  run E (program command) w.

(** The response of a run, [None] when the run raised. *)
Definition response_of (out : result pyval * world) : pyval :=
  match fst out with
  | inr response => response
  | inl _ => PNone
  end.

Definition read_request : pyval := request "read" [].
Definition sweep_request (data : list (string * pyval)) : pyval :=
  request "voltage_sweep" data.

(** Two sessions: one asks for the default sweep, the other switches the
    output off. The second moves once, after the first has set its first
    level and started to wait. *)
Definition two_sessions : machine :=
  Machine [program (sweep_request []);
           program (request "output" [("state", PStr "OFF")])]
    (boot true) [].

Definition during_the_settle_delay : list nat :=
  [0; 0; 0; 0; 0; 0; 0; 1; 0]%nat.

End Bench.

(** ** What a program may do

    [every leaf node p]: whatever the environment answers, each value [p]
    returns satisfies [leaf] and each effect it performs satisfies [node]. *)

Inductive effect : Type :=
| FCall (c : icall)
| FSleep (seconds : pyval)
| FClock
| FDate
| FLog (lvl : level) (msg : string)
| FGet
| FSet (f : server -> server)
| FSend (response : pyval).

Inductive every {A : Type} (leaf : A -> Prop) (node : effect -> Prop)
  : prog A -> Prop :=
| every_ret (a : A) : leaf a -> every leaf node (Ret a)
| every_raise (e : exn) : every leaf node (Raise e)
| every_call (c : icall) (k : result string -> prog A) :
    node (FCall c) -> (forall r, every leaf node (k r)) ->
    every leaf node (Call c k)
| every_sleep (d : pyval) (k : prog A) :
    node (FSleep d) -> every leaf node k -> every leaf node (Sleep d k)
| every_clock (k : float -> prog A) :
    node FClock -> (forall t, every leaf node (k t)) ->
    every leaf node (Clock k)
| every_date (k : string -> prog A) :
    node FDate -> (forall s, every leaf node (k s)) ->
    every leaf node (Date k)
| every_log (l : level) (msg : string) (k : prog A) :
    node (FLog l msg) -> every leaf node k -> every leaf node (Log l msg k)
| every_get (k : server -> prog A) :
    node FGet -> (forall s, every leaf node (k s)) ->
    every leaf node (GetSelf k)
| every_set (f : server -> server) (k : prog A) :
    node (FSet f) -> every leaf node k -> every leaf node (SetSelf f k)
| every_send (r : pyval) (k : option exn -> prog A) :
    node (FSend r) -> (forall o, every leaf node (k o)) ->
    every leaf node (Send r k).

(** The effect an event of the trace records. *)
Definition effect_of (ev : event) : effect :=
  match ev with
  | EvCall c => FCall c
  | EvSleep d => FSleep d
  | EvClock _ => FClock
  | EvDate _ => FDate
  | EvLog l m => FLog l m
  | EvSend r => FSend r
  end.

(** The responses sent on the socket. *)
Fixpoint sent (evs : list event) : list pyval :=
  match evs with
  | [] => []
  | EvSend r :: rest => r :: sent rest
  | _ :: rest => sent rest
  end.

(** A response as the protocol has it: a success with a message, a success
    with data, or a failure with a message. *)
Definition well_formed (response : pyval) : Prop :=
  (exists msg, response = success_message msg)
  \/ (exists data, response = success_data data)
  \/ (exists msg, response = error_response msg).

(** What [process_command] may do: assign the flag and the two counters,
    never send. *)
Definition command_effect (e : effect) : Prop :=
  match e with
  | FSend _ => False
  | FSet f => (exists v, f = set_fast_mode v)
              \/ (exists n, f = set_read_count n)
              \/ (exists n, f = set_error_count n)
  | _ => True
  end.

(** No assignment to [self], nothing sent. *)
Definition pure_effect (e : effect) : Prop :=
  match e with
  | FSend _ => False
  | FSet _ => False
  | _ => True
  end.

(** What the statistics thread may do: sleep, read the clock, log, and
    assign the counters and the time of the last report. *)
Definition stats_effect (e : effect) : Prop :=
  match e with
  | FCall _ => False
  | FSend _ => False
  | FSet f => (exists n, f = set_read_count n)
              \/ (exists n, f = set_error_count n)
              \/ (exists t, f = set_last_stats_time t)
  | _ => True
  end.

(** The command types of the dispatcher, and those that read a field of
    [data]. *)
Definition known_types : list string :=
  ["write"; "query"; "read"; "setup_voltage_source"; "setup_current_source";
   "output"; "voltage_sweep"; "get_status"; "reset"; "set_fast_mode"].

Definition is_known (cmd_type : pyval) : bool :=
  existsb (str_eq cmd_type) known_types.

Definition data_types : list string :=
  ["write"; "query"; "setup_voltage_source"; "setup_current_source";
   "output"; "voltage_sweep"; "set_fast_mode"].

Definition is_object (v : pyval) : bool :=
  match v with
  | PDict _ => true
  | _ => false
  end.

Definition no_get (v : pyval) : string :=
  "'" +++ type_name v +++ "' object has no attribute 'get'".

(** A message of the client: bytes that are not JSON, or a decoded value. *)
Definition is_message (m : incoming) : Prop :=
  match m with
  | RecvInvalid => True
  | RecvJson _ => True
  | _ => False
  end.

(** The keys of an entry of a sweep. *)
Definition entry_keys (entry : pyval) : list string :=
  match entry with
  | PDict m => keys m
  | _ => []
  end.

Definition is_write (c : icall) : bool :=
  match c with
  | IWrite _ => true
  | IQuery _ => false
  end.

(** The command types whose response the client reads the message of, and
    those whose response it reads the data of when it is a success. *)
Definition message_types : list string :=
  ["write"; "setup_voltage_source"; "setup_current_source"; "output";
   "reset"; "set_fast_mode"].

Definition answer_types : list string :=
  ["query"; "read"; "voltage_sweep"; "get_status"].

Definition has_message (response : pyval) : Prop :=
  (exists msg, response = success_message msg)
  \/ (exists msg, response = error_response msg).

Definition has_data (response : pyval) : Prop :=
  (exists data, response = success_data data)
  \/ (exists msg, response = error_response msg).

(** What the two set-up commands send when nothing raises. *)
Definition voltage_source_calls (py_format : string -> pyval -> string)
  (voltage range_val compliance : pyval) : list icall :=
  [IWrite (PStr ":SOUR:FUNC VOLT");
   IWrite (PStr ":SOUR:VOLT:MODE FIXED");
   IWrite (PStr (":SOUR:VOLT " +++ py_format EmptyString voltage))]
  ++ (if str_eq range_val "AUTO" then []
      else [IWrite (PStr (":SOUR:VOLT:RANG "
                          +++ py_format EmptyString range_val))])
  ++ [IWrite (PStr (":SENS:FUNC " +++ quoted "CURR"));
      IWrite (PStr (":SENS:CURR:PROT " +++ py_format EmptyString compliance))].

Definition current_source_calls (py_format : string -> pyval -> string)
  (current range_val compliance : pyval) : list icall :=
  [IWrite (PStr ":SOUR:FUNC CURR");
   IWrite (PStr ":SOUR:CURR:MODE FIXED");
   IWrite (PStr (":SOUR:CURR " +++ py_format EmptyString current))]
  ++ (if str_eq range_val "AUTO" then []
      else [IWrite (PStr (":SOUR:CURR:RANG "
                          +++ py_format EmptyString range_val))])
  ++ [IWrite (PStr (":SENS:FUNC " +++ quoted "VOLT"));
      IWrite (PStr (":SENS:VOLT:PROT " +++ py_format EmptyString compliance))].

(** The calls made are the first ones of [calls], in order. *)
Definition begins (calls : list icall) (evs : list event) : Prop :=
  exists rest, map EvCall calls = evs ++ rest.

(** The two writes that take the instrument out of fast mode. *)
Definition normal_settings : list string :=
  [":SYST:AZER ON"; ":DISP:ENAB ON"].

(** The body of a successful status response. *)
Definition body (response : pyval) : list (string * pyval) :=
  match response with
  | PDict d =>
      match dict_get d "data" PNone with
      | PDict m => m
      | _ => []
      end
  | _ => []
  end.

(** The instrument calls of a connection that succeeds, and those of a
    cleanup whose writes are accepted. *)
Definition connect_calls (fast : pyval) : list icall :=
  (if truthy fast
   then [IWrite (PStr ":SYST:AZER OFF"); IWrite (PStr ":DISP:ENAB OFF")]
   else [])
  ++ [IQuery (PStr "*IDN?"); IWrite (PStr "*RST"); IWrite (PStr "*CLS")]
  ++ (if truthy fast
      then [IWrite (PStr ":SENS:FUNC:CONC ON");
            IWrite (PStr ":FORM:ELEM VOLT,CURR")]
      else []).

Definition cleanup_calls (fast : pyval) : list icall :=
  output_off
  :: (if truthy fast
      then [IWrite (PStr ":SYST:AZER ON"); IWrite (PStr ":DISP:ENAB ON")]
      else []).

(** The keys of an entry of a sweep, in the order the server writes them. *)
Definition sweep_keys : list string :=
  ["set_voltage"; "measured_voltage"; "measured_current"; "timestamp"].

(** The last event of a history. *)
Definition last_event (h : list event) : option event :=
  last (map Some h) None.

(** ** More of the bench *)

Module Rig.

(** An instrument that answers every query with [reply] and refuses every
    write with [e]. *)
Definition read_only (reply : string) (e : exn) : env :=
  Env (fun _ c => match c with
                  | IWrite _ => inl e
                  | IQuery _ => inr reply
                  end)
      Bench.seconds Bench.today (fun _ _ => None).

(** A client that has gone: the instrument answers, every send raises
    [e]. *)
Definition hung_up (reply : string) (e : exn) : env :=
  Env (instrument (Bench.answering reply))
      Bench.seconds Bench.today (fun _ _ => Some e).

Definition broken_pipe : exn :=
  Exn "BrokenPipeError" "[Errno 32] Broken pipe".

Definition no_listeners : exn :=
  Exn "VisaIOError"
    "VI_ERROR_NLISTENERS (-1073807265): No listeners condition is detected.".

Definition peer : pyval := PStr "('127.0.0.1', 50514)".

(** A running server that has counted [reads] reads since [since]. *)
Definition counted (reads : Z) (since : float) : world :=
  World (Server (PBool true) true reads 0 since) [].

Definition client (inbox : list incoming) : prog unit :=
  handle_client Runtime.py_float Runtime.py_format Runtime.py_sleep peer
    inbox.

End Rig.

(** ** Proof tools *)

(** Decide, one after the other, what the environment answered and which
    way each test went. *)
Ltac crunch :=
  repeat (simpl;
          match goal with
          | |- context [instrument ?E ?h ?c] =>
              let H := fresh "Hreply" in destruct (instrument E h c) eqn:H
          | |- context [lift ?r] =>
              let H := fresh "Hval" in destruct r eqn:H
          | |- context [if ?b then _ else _] =>
              let H := fresh "Htest" in destruct b eqn:H
          end);
  simpl.

(** A command that makes one call: the cases of [at_most], the scrutinee of a
    stuck [lift] or test decided on the way. *)
Ltac bound :=
  repeat (simpl;
          match goal with
          | |- at_most _ (Ret _) => constructor
          | |- at_most _ (Raise _) => constructor
          | |- at_most _ (Call _ _) => constructor; intros
          | |- at_most _ (Sleep _ _) => constructor
          | |- at_most _ (Clock _) => constructor; intros
          | |- at_most _ (Date _) => constructor; intros
          | |- at_most _ (Log _ _ _) => constructor
          | |- at_most _ (GetSelf _) => constructor; intros
          | |- at_most _ (SetSelf _ _) => constructor
          | |- at_most _ (Send _ _) => constructor; intros
          | |- context [lift ?r] => destruct r
          | |- context [if ?b then _ else _] => destruct b
          | |- context [match ?x with PDict _ => _ | _ => _ end] => destruct x
          end).

(** The cases of [every]: each effect checked against what is allowed, the
    scrutinee of a stuck [lift] or test decided on the way. *)
Ltac allowed :=
  first [ exact I
        | solve [simpl; unfold well_formed, has_message, has_data; eauto 7]
        | idtac ].

Ltac walk :=
  repeat (simpl;
          match goal with
          | |- every _ _ (Ret _) => constructor; allowed
          | |- every _ _ (Raise _) => constructor
          | |- every _ _ (Call _ _) => constructor; [allowed | intros]
          | |- every _ _ (Sleep _ _) => constructor; [allowed |]
          | |- every _ _ (Clock _) => constructor; [allowed | intros]
          | |- every _ _ (Date _) => constructor; [allowed | intros]
          | |- every _ _ (Log _ _ _) => constructor; [allowed |]
          | |- every _ _ (GetSelf _) => constructor; [allowed | intros]
          | |- every _ _ (SetSelf _ _) => constructor; [allowed |]
          | |- every _ _ (Send _ _) => constructor; [allowed | intros]
          | |- every _ _ ?p =>
              match p with
              | context [lift ?r] => destruct r
              | context [if ?b then _ else _] => destruct b
              | context [match ?x with PDict _ => _ | _ => _ end] => destruct x
              | context [match ?x with Some _ => _ | None => _ end] =>
                  destruct x
              end
          end);
  simpl.

(** * Properties *)

(** ** How [run] goes through the combinators *)

Section RunFacts.

Variable E : env.

Lemma run_bind {A B : Type} (p : prog A) (f : A -> prog B) (w : world) :
  run E (bind p f) w =
  match run E p w with
  | (inl e, w') => (inl e, w')
  | (inr a, w') => run E (f a) w'
  end.
Proof.
  revert w; induction p; intro w; simpl; auto.
Qed.

Lemma run_try_except {A : Type} (p : prog A) (h : exn -> prog A) (w : world) :
  run E (try_except p h) w =
  match run E p w with
  | (inl e, w') => run E (h e) w'
  | (inr a, w') => (inr a, w')
  end.
Proof.
  revert w; induction p; intro w; simpl; auto.
Qed.

Lemma run_lift {A : Type} (r : result A) (w : world) :
  run E (lift r) w = (r, w).
Proof. destruct r; reflexivity. Qed.

Lemma run_write (cmd : pyval) (w : world) :
  run E (write cmd) w =
  (match instrument E (trace w) (IWrite cmd) with
   | inl e => inl e
   | inr _ => inr tt
   end, record (EvCall (IWrite cmd)) w).
Proof.
  unfold write; simpl.
  destruct (instrument E (trace w) (IWrite cmd)); reflexivity.
Qed.

Lemma run_query (cmd : pyval) (w : world) :
  run E (query cmd) w =
  (instrument E (trace w) (IQuery cmd), record (EvCall (IQuery cmd)) w).
Proof. unfold query; simpl. apply run_lift. Qed.

(** A program never changes what is already in the trace. *)
Lemma run_extends {A : Type} (p : prog A) (w : world) :
  exists evs, trace (snd (run E p w)) = trace w ++ evs.
Proof.
  revert w; induction p; intro w; simpl;
    try (exists []; rewrite app_nil_r; reflexivity);
    try match goal with
        | H : forall x w, exists _, _ |- context [run E (?k ?x) ?w'] =>
            destruct (H x w') as [evs Hevs]
        | H : forall w, exists _, _ |- context [run E ?k ?w'] =>
            destruct (H w') as [evs Hevs]
        end;
    try (rewrite Hevs; simpl; rewrite <- app_assoc; eexists; reflexivity);
    try (rewrite Hevs; simpl; eexists; reflexivity).
Qed.

End RunFacts.

(** ** The dispatcher *)

Section DispatchFacts.

Variable py_float : string -> result float.
Variable py_format : string -> pyval -> string.
Variable py_sleep : pyval -> option exn.

(** On a decoded object, [process_command] is the dispatch on its type
    inside the outer [try]. *)
Lemma process_command_typed (d : list (string * pyval)) (type : string) :
  has_type d type ->
  process_command py_float py_format py_sleep (PDict d) =
  try_except
    (dispatch py_float py_format py_sleep (PStr type)
       (dict_get d "data" (PDict [])))
    (fun e => Ret (error_response (exn_str e))).
Proof.
  unfold has_type, process_command; simpl; intros ->; reflexivity.
Qed.

(** No exception leaves [process_command] on a decoded object. *)
Lemma process_command_returns (E : env) (d : list (string * pyval))
  (w : world) :
  exists response,
    fst (run E (process_command py_float py_format py_sleep (PDict d)) w)
    = inr response.
Proof.
  unfold process_command; simpl.
  rewrite run_try_except.
  destruct (run E _ w) as [[e | a] w']; simpl; eauto.
Qed.

End DispatchFacts.

Lemma log_records_app (a b : list event) :
  log_records (a ++ b) = log_records a ++ log_records b.
Proof.
  induction a as [| ev a IH]; simpl; [reflexivity |].
  destruct ev; simpl; rewrite ?IH; reflexivity.
Qed.

Lemma instrument_calls_app (a b : list event) :
  instrument_calls (a ++ b) = instrument_calls a ++ instrument_calls b.
Proof.
  induction a as [| ev a IH]; simpl; [reflexivity |].
  destruct ev; simpl; rewrite ?IH; reflexivity.
Qed.

(** A lookup that finds something else than the default finds it whatever
    the default. *)
Lemma dict_get_found (d : list (string * pyval)) (key : string)
  (default other v : pyval) :
  dict_get d key default = v -> v <> default -> dict_get d key other = v.
Proof.
  induction d as [| [k x] d IH]; simpl; intros Hget Hne.
  - congruence.
  - destruct (String.eqb k key); auto.
Qed.

Lemma last_last_3 {A : Type} (l : list A) (a b c default : A) :
  last (l ++ [a; b; c]) default = c.
Proof.
  change [a; b; c] with ([a; b] ++ [c]).
  rewrite app_assoc. apply last_last.
Qed.

(** ** Floating-point comparisons *)




(** ** Fields of a reply *)

Lemma split_aux_length (sep : ascii) (s cur : string) :
  List.length (split_aux sep cur s) = S (count sep s).
Proof.
  revert cur; induction s as [|c s IH]; intro cur; simpl; [reflexivity |].
  destruct (Ascii.eqb c sep); simpl; rewrite IH; reflexivity.
Qed.

Lemma is_space_not_comma (c : ascii) :
  is_space c = true -> Ascii.eqb c comma = false.
Proof.
  destruct c as [[] [] [] [] [] [] [] []]; vm_compute; congruence.
Qed.

Lemma count_lstrip (s : string) : count comma (lstrip s) = count comma s.
Proof.
  induction s as [|c s IH]; simpl; [reflexivity |].
  destruct (is_space c) eqn:Hc; [| reflexivity].
  rewrite (is_space_not_comma _ Hc); exact IH.
Qed.

Lemma count_rstrip (s : string) : count comma (rstrip s) = count comma s.
Proof.
  induction s as [|c s IH]; simpl; [reflexivity |].
  destruct (rstrip s) as [|c' r] eqn:Hr.
  - simpl in IH. destruct (is_space c) eqn:Hc; simpl.
    + rewrite (is_space_not_comma _ Hc); exact IH.
    + rewrite <- IH; reflexivity.
  - simpl; rewrite <- IH; reflexivity.
Qed.

(** Stripping removes no comma: the server sees one field more than the
    reply has commas. *)
Lemma fields_length (reply : string) :
  List.length (fields reply) = S (count comma reply).
Proof.
  unfold fields, split, strip.
  rewrite split_aux_length, count_rstrip, count_lstrip; reflexivity.
Qed.

(** ** Reset *)

Section ResetFacts.

Variable py_float : string -> result float.
Variable py_format : string -> pyval -> string.
Variable py_sleep : pyval -> option exn.
Variable E : env.


End ResetFacts.

(** ** Read *)

Section ReadFacts.

Variable py_float : string -> result float.
Variable py_format : string -> pyval -> string.
Variable py_sleep : pyval -> option exn.
Variable E : env.

#[local] Arguments Nat.ltb : simpl never.


(** C5. A successful read answers with a measurement of exactly the six
    entries voltage, current, resistance, power, timestamp and read time.
    In fast mode none of them is [None]. In standard mode the resistance is
    the third field of the reply and [None] when the reply has fewer than
    three fields, the power is the fourth field and [None] when it has
    fewer than four. *)
Theorem read_shape (d : list (string * pyval)) (w : world)
  (response : pyval) :
  has_type d "read" ->
  fst (run E (process_command py_float py_format py_sleep (PDict d)) w)
  = inr response ->
  succeeded response = true ->
  exists m,
    response = success_data (PDict m)
    /\ keys m = ["voltage"; "current"; "resistance"; "power"; "timestamp";
                 "read_time_ms"]
    /\ (truthy (fast_mode (self w)) = true ->
        Forall (fun kv => snd kv <> PNone) m)
    /\ (truthy (fast_mode (self w)) = false ->
        exists reply,
          read_reply E w = inr reply
          /\ (if (List.length (fields reply) <? 3)%nat
              then dict_get m "resistance" (PInt 0) = PNone
              else exists r, float_at py_float (fields reply) 2 = inr r
                             /\ dict_get m "resistance" PNone = PFloat r)
          /\ (if (List.length (fields reply) <? 4)%nat
              then dict_get m "power" (PInt 0) = PNone
              else exists r, float_at py_float (fields reply) 3 = inr r
                             /\ dict_get m "power" PNone = PFloat r)).
Proof.
  intros Htype.
  rewrite (process_command_typed _ _ _ _ _ Htype).
  unfold read_reply, read_asked.
  unfold dispatch; simpl.
  destruct (truthy (fast_mode (self w))) eqn:Hfast; simpl.
  - crunch; intros Hresp Hok; injection Hresp as <-;
      try (vm_compute in Hok; discriminate Hok);
      eexists; (split; [reflexivity |]); (split; [reflexivity |]);
      (split; [| discriminate]);
      intros _; repeat constructor; discriminate.
  - destruct (instrument E (trace w ++ [EvClock (time_time E (trace w))])
                (IQuery (PStr ":READ?"))) as [e | reply] eqn:Hreply; simpl.
    + crunch; intros Hresp Hok; injection Hresp as <-;
        vm_compute in Hok; discriminate Hok.
    + unfold fields.
      set (values := split comma (strip reply)).
      destruct (float_at py_float values 0) eqn:Hv; simpl;
        [crunch; intros Hresp Hok; injection Hresp as <-;
         vm_compute in Hok; discriminate Hok |].
      destruct (float_at py_float values 1) eqn:Hc; simpl;
        [crunch; intros Hresp Hok; injection Hresp as <-;
         vm_compute in Hok; discriminate Hok |].
      assert (H3 : (List.length values <? 3)%nat
                   = negb (2 <? List.length values)%nat).
      { destruct (Nat.ltb_spec (List.length values) 3),
          (Nat.ltb_spec 2 (List.length values)); simpl; lia. }
      assert (H4 : (List.length values <? 4)%nat
                   = negb (3 <? List.length values)%nat).
      { destruct (Nat.ltb_spec (List.length values) 4),
          (Nat.ltb_spec 3 (List.length values)); simpl; lia. }
      destruct (2 <? List.length values)%nat eqn:H2; simpl;
        [destruct (float_at py_float values 2) eqn:Hr; simpl;
         [crunch; intros Hresp Hok; injection Hresp as <-;
          vm_compute in Hok; discriminate Hok |] |];
        (destruct (3 <? List.length values)%nat eqn:H5; simpl;
         [destruct (float_at py_float values 3) eqn:Hp; simpl;
          [crunch; intros Hresp Hok; injection Hresp as <-;
           vm_compute in Hok; discriminate Hok |] |]);
        intros Hresp Hok; injection Hresp as <-;
        eexists; (split; [reflexivity |]); (split; [reflexivity |]);
        (split; [discriminate |]); intros _;
        exists reply; (split; [reflexivity |]);
        fold values; rewrite H3, H4; simpl; split;
        try reflexivity; eexists; split; (eassumption || reflexivity).
Qed.

(** C10, as the code has it. In fast mode only the first two fields of the
    reply are read: when the reply has fewer than two fields, or its first
    or its second field is not a number, the read answers with a failure,
    the error counter has gone up by one and the read counter by one. *)
Theorem fast_read_rejects_bad_reply (d : list (string * pyval)) (w : world)
  (reply : string) :
  has_type d "read" ->
  truthy (fast_mode (self w)) = true ->
  read_reply E w = inr reply ->
  (List.length (fields reply) < 2)%nat
  \/ (exists i field e,
        (i < 2)%nat /\ nth_error (fields reply) i = Some field
        /\ py_float field = inl e) ->
  let out := run E (process_command py_float py_format py_sleep (PDict d)) w in
  (exists msg, fst out = inr (error_response msg))
  /\ read_count (self (snd out)) = read_count (self w) + 1
  /\ error_count (self (snd out)) = error_count (self w) + 1.
Proof.
  intros Htype Hfast Hreply Hbad out; subst out.
  rewrite (process_command_typed _ _ _ _ _ Htype).
  unfold read_reply, read_asked, fields in *.
  unfold dispatch; simpl. rewrite Hfast; simpl. rewrite Hreply; simpl.
  set (values := split comma (strip reply)) in *.
  assert (Hraise : (exists e, float_at py_float values 0 = inl e)
                   \/ (exists e, float_at py_float values 1 = inl e)).
  { unfold float_at, py_index.
    destruct Hbad as [Hshort | (i & field & e & Hi & Hnth & Hparse)].
    - right.
      assert (Hn : nth_error values 1 = None)
        by (apply nth_error_None; fold values in Hshort; lia).
      rewrite Hn; simpl; eauto.
    - destruct i as [| [| i]]; [left | right | lia];
        rewrite Hnth; simpl; eauto. }
  destruct Hraise as [[e He] | [e He]].
  - rewrite He; crunch; repeat split; eauto.
  - destruct (float_at py_float values 0); simpl;
      [| rewrite He]; crunch; repeat split; eauto.
Qed.

End ReadFacts.

Section ReadFailure.

Variable py_float : string -> result float.
Variable py_format : string -> pyval -> string.
Variable py_sleep : pyval -> option exn.
Variable E : env.

(** A session that receives a command on which [process_command] returns,
    and whose socket takes the response, goes on with what arrives next. *)
Lemma session_goes_on (address : pyval) (d : list (string * pyval))
  (rest : list incoming) (w w' : world) (response : pyval) :
  has_type d "read" ->
  running (self w) = true ->
  run E (process_command py_float py_format py_sleep (PDict d)) w
  = (inr response, w') ->
  socket_send E (trace w') response = None ->
  run E (session py_float py_format py_sleep address
           (RecvJson (PDict d) :: rest)) w
  = run E (session py_float py_format py_sleep address rest)
      (record (EvSend response) w').
Proof.
  intros Htype Hrunning Hrun Hsend.
  assert (Hty : dict_get d "type" PNone = PStr "read")
    by (apply (dict_get_found _ _ _ _ _ Htype); discriminate).
  cbn [session get_self bind run]. rewrite Hrunning. cbn [negb].
  rewrite run_bind. unfold serve.
  rewrite run_try_except.
  cbn [py_get lift bind]. rewrite Hty.
  cbn [str_eq String.eqb Ascii.eqb Bool.eqb negb bind].
  rewrite run_bind, Hrun.
  cbn [send run of_outcome]. rewrite Hsend. reflexivity.
Qed.

#[local] Arguments Nat.ltb : simpl never.

(** The [except] clause of a read: it counts the failure, logs it by the
    rule of the timeouts, and answers with the failure that carries the
    text of the exception. *)
Lemma run_read_failed (e : exn) (w : world) :
  exists w',
    run E (read_failed py_format e) w = (inr (error_response (exn_str e)), w')
    /\ running (self w') = running (self w)
    /\ error_count (self w') = error_count (self w) + 1
    /\ log_records (trace w')
       = log_records (trace w)
         ++ read_failure_log py_format (error_count (self w) + 1) (exn_str e).
Proof.
  unfold read_failed, read_failure_log.
  crunch; eexists; (split; [reflexivity |]); (split; [reflexivity |]);
    (split; [reflexivity |]);
    simpl; rewrite ?log_records_app; simpl; rewrite ?app_nil_r; reflexivity.
Qed.

(** The attempt assigns nothing and logs nothing. *)
Lemma attempt_quiet (start : float) (w : world) :
  let out := run E (take_measurement py_float start) w in
  self (snd out) = self w
  /\ log_records (trace (snd out)) = log_records (trace w).
Proof.
  unfold take_measurement.
  crunch; (split; [reflexivity |]);
    simpl; rewrite ?log_records_app; simpl; rewrite ?app_nil_r; reflexivity.
Qed.

(** A read is its attempt, and the [except] clause when the attempt
    raises. *)
Lemma run_read (d : list (string * pyval)) (w : world) :
  has_type d "read" ->
  run E (process_command py_float py_format py_sleep (PDict d)) w
  = match run E (take_measurement py_float (time_time E (trace w)))
            (read_attempt_world E w) with
    | (inl e, w') => run E (read_failed py_format e) w'
    | (inr response, w') => (inr response, w')
    end.
Proof.
  intros Htype.
  rewrite (process_command_typed _ _ _ _ _ Htype).
  change (dispatch py_float py_format py_sleep (PStr "read")
            (dict_get d "data" (PDict [])))
    with (read py_float py_format).
  rewrite run_try_except.
  unfold read. cbn [bind get_self set_self clock run trace self].
  change (record (EvClock (time_time E (trace w)))
            (World (set_read_count (read_count (self w) + 1) (self w))
               (trace w)))
    with (read_attempt_world E w).
  rewrite run_try_except.
  destruct (run E (take_measurement py_float (time_time E (trace w)))
              (read_attempt_world E w)) as [[e | response] w'];
    [| reflexivity].
  destruct (run_read_failed e w') as (w'' & -> & _); reflexivity.
Qed.

(** What makes the attempt raise: a query that raises; a reply whose first
    or second field is not there or is no number; in standard mode, a third
    or fourth field that is no number. *)
Lemma query_raises_attempt (w : world) (e : exn) :
  read_reply E w = inl e -> read_attempt py_float E w = inl e.
Proof.
  unfold read_reply, read_attempt, read_attempt_world, take_measurement.
  intros Hreply. simpl.
  destruct (truthy (fast_mode (self w))); simpl; rewrite Hreply; reflexivity.
Qed.

Lemma bad_field_raises_attempt (w : world) (reply : string) (e : exn) :
  read_reply E w = inr reply ->
  float_at py_float (fields reply) 0 = inl e
  \/ (exists voltage,
        float_at py_float (fields reply) 0 = inr voltage
        /\ float_at py_float (fields reply) 1 = inl e) ->
  read_attempt py_float E w = inl e.
Proof.
  unfold read_reply, read_attempt, read_attempt_world, take_measurement, fields.
  intros Hreply Hbad. simpl.
  destruct (truthy (fast_mode (self w))); simpl; rewrite Hreply; simpl;
    destruct Hbad as [H0 | (voltage & H0 & H1)]; rewrite H0; simpl;
    try rewrite H1; reflexivity.
Qed.

Lemma bad_extra_field_raises_attempt (w : world) (reply : string)
  (voltage current : float) (e : exn) :
  truthy (fast_mode (self w)) = false ->
  read_reply E w = inr reply ->
  float_at py_float (fields reply) 0 = inr voltage ->
  float_at py_float (fields reply) 1 = inr current ->
  ((2 <? List.length (fields reply))%nat = true
   /\ float_at py_float (fields reply) 2 = inl e)
  \/ ((2 <? List.length (fields reply))%nat = true
      /\ (exists resistance,
            float_at py_float (fields reply) 2 = inr resistance)
      /\ (3 <? List.length (fields reply))%nat = true
      /\ float_at py_float (fields reply) 3 = inl e) ->
  read_attempt py_float E w = inl e.
Proof.
  unfold read_reply, read_attempt, read_attempt_world, take_measurement, fields.
  intros Hfast Hreply H0 H1 Hbad. simpl.
  rewrite Hfast; simpl. rewrite Hreply; simpl. rewrite H0; simpl.
  rewrite H1; simpl.
  destruct Hbad as [[Hlen H2] | (Hlen & (resistance & H2) & Hlen' & H3)];
    rewrite Hlen; simpl; rewrite H2; simpl; [reflexivity |].
  rewrite Hlen'; simpl; rewrite H3; reflexivity.
Qed.

(** C8. A [read] command always comes back with a response, and leaves the
    server running. A read fails when its attempt (the query and the
    reading of the reply) raises, and only then: the response is the
    failure that carries the text of the exception, the failure has been
    counted, and the log has grown by: for a text sorted with the timeouts,
    one warning when the error counter (after counting) is 1 modulo 20 and
    nothing otherwise; for any other text, one error record. The attempt
    raises when the query raises, when the first or second field of the
    reply is not there or is no number, and in standard mode when a third
    or fourth field is no number. The session then sends the response and
    goes on with its next message. *)
Theorem read_failure_is_contained (d : list (string * pyval)) (w : world) :
  has_type d "read" ->
  let out := run E (process_command py_float py_format py_sleep (PDict d)) w in
  exists response,
    fst out = inr response
    /\ running (self (snd out)) = running (self w)
    /\ (forall e,
          read_attempt py_float E w = inl e ->
          response = error_response (exn_str e)
          /\ error_count (self (snd out)) = error_count (self w) + 1
          /\ log_records (trace (snd out))
             = log_records (trace w)
               ++ read_failure_log py_format (error_count (self w) + 1)
                    (exn_str e))
    /\ (failed response = true ->
        exists e, read_attempt py_float E w = inl e)
    /\ (forall e, read_reply E w = inl e -> read_attempt py_float E w = inl e)
    /\ (forall reply e,
          read_reply E w = inr reply ->
          float_at py_float (fields reply) 0 = inl e
          \/ (exists voltage,
                float_at py_float (fields reply) 0 = inr voltage
                /\ float_at py_float (fields reply) 1 = inl e) ->
          read_attempt py_float E w = inl e)
    /\ (forall reply voltage current e,
          truthy (fast_mode (self w)) = false ->
          read_reply E w = inr reply ->
          float_at py_float (fields reply) 0 = inr voltage ->
          float_at py_float (fields reply) 1 = inr current ->
          ((2 <? List.length (fields reply))%nat = true
           /\ float_at py_float (fields reply) 2 = inl e)
          \/ ((2 <? List.length (fields reply))%nat = true
              /\ (exists resistance,
                    float_at py_float (fields reply) 2 = inr resistance)
              /\ (3 <? List.length (fields reply))%nat = true
              /\ float_at py_float (fields reply) 3 = inl e) ->
          read_attempt py_float E w = inl e)
    /\ (forall address rest,
          running (self w) = true ->
          socket_send E (trace (snd out)) response = None ->
          run E (session py_float py_format py_sleep address
                   (RecvJson (PDict d) :: rest)) w
          = run E (session py_float py_format py_sleep address rest)
              (record (EvSend response) (snd out))).
Proof.
  intros Htype out.
  pose proof (run_read d w Htype) as Hrun. fold out in Hrun.
  pose proof (attempt_quiet (time_time E (trace w)) (read_attempt_world E w))
    as Hquiet.
  pose proof (query_raises_attempt w) as Hquery.
  pose proof (bad_field_raises_attempt w) as Hfield.
  pose proof (bad_extra_field_raises_attempt w) as Hextra.
  unfold read_attempt in *.
  destruct (run E (take_measurement py_float (time_time E (trace w)))
              (read_attempt_world E w)) as [[e | measurement] w1] eqn:Hattempt.
  - destruct (run_read_failed e w1)
      as (w2 & Hfailed & Hrunning & Hcount & Hlog).
    rewrite Hfailed in Hrun.
    simpl in Hquiet; destruct Hquiet as [Hself Hlogs].
    exists (error_response (exn_str e)).
    rewrite Hrun; simpl.
    split; [reflexivity |].
    split; [rewrite Hrunning, Hself; reflexivity |].
    split.
    { intros e' He'; injection He' as <-.
      split; [reflexivity |].
      split; [rewrite Hcount, Hself; reflexivity |].
      rewrite Hlog, Hlogs, Hself; simpl.
      unfold read_asked; rewrite log_records_app, app_nil_r; reflexivity. }
    split; [intros _; exists e; reflexivity |].
    split; [exact Hquery |].
    split; [exact Hfield |].
    split; [exact Hextra |].
    intros address rest Hrun' Hsend.
    apply (session_goes_on address d rest w w2
             (error_response (exn_str e)) Htype Hrun' Hrun Hsend).
  - simpl in Hquiet; destruct Hquiet as [Hself Hlogs].
    exists measurement.
    rewrite Hrun; simpl.
    split; [reflexivity |].
    split; [rewrite Hself; reflexivity |].
    split; [intros e' He'; discriminate He' |].
    split.
    { intros Hfail. exfalso. revert Hattempt Hfail.
      unfold take_measurement, read_attempt_world.
      crunch; intros Hattempt; inversion Hattempt; subst;
        intros Hfail; vm_compute in Hfail; discriminate Hfail. }
    split; [exact Hquery |].
    split; [exact Hfield |].
    split; [exact Hextra |].
    intros address rest Hrun' Hsend.
    apply (session_goes_on address d rest w w1
             measurement Htype Hrun' Hrun Hsend).
Qed.

End ReadFailure.

(** ** Counters *)

Section CounterFacts.

Variable py_float : string -> result float.
Variable py_format : string -> pyval -> string.
Variable py_sleep : pyval -> option exn.
Variable E : env.

#[local] Arguments num_truediv : simpl never.
#[local] Arguments int_truediv : simpl never.






End CounterFacts.

(** ** Voltage sweep *)

Section SweepFacts.

Variable py_float : string -> result float.
Variable py_format : string -> pyval -> string.
Variable py_sleep : pyval -> option exn.
Variable E : env.

(** A step that completes has written the level, waited, queried and read
    the date, and returns an entry for its level. *)
Lemma sweep_step_done (delay : pyval) (v : float) (w w' : world)
  (entry : pyval) :
  run E (sweep_step py_float py_format py_sleep delay v) w = (inr entry, w') ->
  set_voltage entry = PFloat v
  /\ self w' = self w
  /\ exists stamp,
       trace w' = trace w ++ [EvCall (IWrite (level_command py_format v));
                              EvSleep delay; qu ":READ?"; EvDate stamp].
Proof.
  unfold sweep_step, sleep, level_command.
  destruct (py_sleep delay) eqn:Hsleep;
    crunch; intros Hrun; inversion Hrun; subst.
  simpl; split; [reflexivity |]; split; [reflexivity |].
  eexists; rewrite <- !app_assoc; reflexivity.
Qed.

(** A loop that completes has gone through every level in order. *)
Lemma sweep_loop_done (delay : pyval) (vs : list float) :
  forall (acc : list pyval) (w w' : world) (results : list pyval),
    run E (sweep_loop py_float py_format py_sleep delay vs acc) w
    = (inr results, w') ->
    self w' = self w
    /\ exists entries evs,
         results = acc ++ entries
         /\ map set_voltage entries = map PFloat vs
         /\ trace w' = trace w ++ evs
         /\ instrument_calls evs = flat_map (step_calls py_format) vs.
Proof.
  induction vs as [| v vs IH]; intros acc w w' results Hrun.
  - simpl in Hrun; inversion Hrun; subst.
    split; [reflexivity |].
    exists [], []; rewrite !app_nil_r; repeat split; reflexivity.
  - cbn [sweep_loop] in Hrun. rewrite run_bind in Hrun.
    destruct (run E (sweep_step py_float py_format py_sleep delay v) w)
      as [[e | entry] w1] eqn:Hstep; [discriminate Hrun |].
    destruct (sweep_step_done _ _ _ _ _ Hstep) as (Hset & Hself & stamp & Htr).
    destruct (IH _ _ _ _ Hrun)
      as (Hself' & entries & evs & Hres & Hsets & Htr' & Hcalls).
    split; [congruence |].
    exists (entry :: entries),
      ([EvCall (IWrite (level_command py_format v)); EvSleep delay;
        qu ":READ?"; EvDate stamp] ++ evs).
    repeat split.
    + rewrite Hres, <- app_assoc; reflexivity.
    + simpl; rewrite Hset, Hsets; reflexivity.
    + rewrite Htr', Htr, <- app_assoc; reflexivity.
    + rewrite instrument_calls_app, Hcalls; reflexivity.
Qed.

(** The loop over [l1 ++ l2] is the loop over [l1] followed by the loop
    over [l2]. *)
Lemma sweep_loop_app (delay : pyval) (l1 l2 : list float) :
  forall (acc : list pyval) (w : world),
    run E (sweep_loop py_float py_format py_sleep delay (l1 ++ l2) acc) w =
    match run E (sweep_loop py_float py_format py_sleep delay l1 acc) w with
    | (inl e, w') => (inl e, w')
    | (inr acc', w') =>
        run E (sweep_loop py_float py_format py_sleep delay l2 acc') w'
    end.
Proof.
  induction l1 as [| v l1 IH]; intros acc w; [reflexivity |].
  cbn [app sweep_loop]. rewrite !run_bind.
  destruct (run E (sweep_step py_float py_format py_sleep delay v) w)
    as [[e | entry] w1]; [reflexivity | apply IH].
Qed.

(** The set-up of a sweep that completes has made its five writes. *)
Lemma sweep_setup_done (compliance : pyval) (w w' : world) :
  run E (sweep_setup py_format compliance) w = (inr tt, w') ->
  self w' = self w
  /\ trace w' = trace w ++ map EvCall (setup_calls py_format compliance).
Proof.
  unfold sweep_setup, setup_calls.
  crunch; intros Hrun; inversion Hrun; subst.
  simpl; split; [reflexivity |].
  rewrite <- !app_assoc; reflexivity.
Qed.

(** The sweep on the data of a request, as a sequence of its stages. *)
Lemma run_voltage_sweep (data : list (string * pyval)) (w : world) :
  run E (voltage_sweep py_float py_format py_sleep (PDict data)) w =
  match run E (sweep_setup py_format
                 (dict_get data "compliance" (PFloat 0.1))) w with
  | (inl e, w1) => (inl e, w1)
  | (inr _, w1) =>
      match sweep_voltages (dict_get data "start" (PInt 0))
              (dict_get data "stop" (PInt 5))
              (dict_get data "steps" (PInt 11)) with
      | inl e => (inl e, w1)
      | inr voltages =>
          match run E (sweep_loop py_float py_format py_sleep
                         (dict_get data "delay" (PFloat 0.1)) voltages [])
                  w1 with
          | (inl e, w2) => (inl e, w2)
          | (inr results, w2) =>
              (match instrument E (trace w2) output_off with
               | inl e => inl e
               | inr _ => inr (success_data (PList results))
               end, record (EvCall output_off) w2)
          end
      end
  end.
Proof.
  unfold voltage_sweep. cbn [py_get lift bind].
  rewrite run_bind.
  destruct (run E (sweep_setup _ _) w) as [[e | []] w1]; [reflexivity |].
  rewrite run_bind, run_lift.
  destruct (sweep_voltages _ _ _) as [e | voltages]; [reflexivity |].
  rewrite run_bind.
  destruct (run E (sweep_loop _ _ _ _ _ _) w1) as [[e | results] w2];
    [reflexivity |].
  rewrite run_bind, run_write. unfold output_off.
  destruct (instrument E (trace w2) _); reflexivity.
Qed.

(** [process_command] on a sweep request with a [data] object. *)
Lemma run_sweep_command (d data : list (string * pyval)) (w : world) :
  has_type d "voltage_sweep" ->
  dict_get d "data" (PDict []) = PDict data ->
  run E (process_command py_float py_format py_sleep (PDict d)) w =
  match run E (voltage_sweep py_float py_format py_sleep (PDict data)) w with
  | (inl e, w') => (inr (error_response (exn_str e)), w')
  | (inr response, w') => (inr response, w')
  end.
Proof.
  intros Htype Hdata.
  rewrite (process_command_typed _ _ _ _ _ Htype), Hdata.
  change (dispatch py_float py_format py_sleep (PStr "voltage_sweep")
            (PDict data))
    with (voltage_sweep py_float py_format py_sleep (PDict data)).
  rewrite run_try_except.
  destruct (run E _ w) as [[e | response] w']; reflexivity.
Qed.

(** A sweep that answers with a success has computed its levels, gone
    through all of them in order, and switched the output off at the end. *)
Lemma sweep_success (d data : list (string * pyval)) (w : world)
  (response : pyval) :
  has_type d "voltage_sweep" ->
  dict_get d "data" (PDict []) = PDict data ->
  fst (run E (process_command py_float py_format py_sleep (PDict d)) w)
  = inr response ->
  succeeded response = true ->
  exists voltages results evs,
    sweep_voltages (dict_get data "start" (PInt 0))
      (dict_get data "stop" (PInt 5)) (dict_get data "steps" (PInt 11))
    = inr voltages
    /\ response = success_data (PList results)
    /\ map set_voltage results = map PFloat voltages
    /\ trace (snd (run E (process_command py_float py_format py_sleep
                            (PDict d)) w))
       = trace w ++ evs
    /\ instrument_calls evs
       = setup_calls py_format (dict_get data "compliance" (PFloat 0.1))
         ++ flat_map (step_calls py_format) voltages ++ [output_off].
Proof.
  intros Htype Hdata.
  rewrite (run_sweep_command _ _ _ Htype Hdata), run_voltage_sweep.
  destruct (run E (sweep_setup _ _) w) as [[e | []] w1] eqn:Hsetup;
    [simpl; intros Hr Hok; injection Hr as <-; discriminate Hok |].
  destruct (sweep_voltages _ _ _) as [e | voltages];
    [simpl; intros Hr Hok; injection Hr as <-; discriminate Hok |].
  destruct (run E (sweep_loop _ _ _ _ _ _) w1) as [[e | results] w2] eqn:Hloop;
    [simpl; intros Hr Hok; injection Hr as <-; discriminate Hok |].
  destruct (instrument E (trace w2) output_off);
    simpl; intros Hr Hok; injection Hr as <-; [discriminate Hok |].
  destruct (sweep_setup_done _ _ _ Hsetup) as (_ & Htr1).
  destruct (sweep_loop_done _ _ _ _ _ _ Hloop)
    as (_ & entries & evs & Hres & Hsets & Htr2 & Hcalls).
  exists voltages, results,
    (map EvCall (setup_calls py_format
                   (dict_get data "compliance" (PFloat 0.1)))
     ++ evs ++ [EvCall output_off]).
  split; [reflexivity |]. split; [reflexivity |].
  split; [rewrite Hres; exact Hsets |].
  split.
  - rewrite Htr2, Htr1, <- !app_assoc; reflexivity.
  - rewrite !instrument_calls_app, Hcalls; reflexivity.
Qed.

(** C7. A sweep from 0 to 5 in 11 points that answers with a success has
    commanded, step after step, the levels 0, 0.5, ..., 5, which are exactly
    [0 + i * (5 - 0) / 10] and strictly increase; its response lists 11
    results, in that order, whose [set_voltage] are these levels. *)
Theorem sweep_0_5_11 (d data : list (string * pyval)) (w : world)
  (response : pyval) :
  has_type d "voltage_sweep" ->
  dict_get d "data" (PDict []) = PDict data ->
  dict_get data "start" (PInt 0) = PInt 0
  \/ dict_get data "start" (PInt 0) = PFloat 0 ->
  dict_get data "stop" (PInt 5) = PInt 5
  \/ dict_get data "stop" (PInt 5) = PFloat 5 ->
  dict_get data "steps" (PInt 11) = PInt 11 ->
  fst (run E (process_command py_float py_format py_sleep (PDict d)) w)
  = inr response ->
  succeeded response = true ->
  evenly_spaced 0 5 10 0 levels_0_5_11 = true
  /\ increasing levels_0_5_11 = true
  /\ exists results evs,
       response = success_data (PList results)
       /\ List.length results = 11%nat
       /\ map set_voltage results = map PFloat levels_0_5_11
       /\ trace (snd (run E (process_command py_float py_format py_sleep
                               (PDict d)) w))
          = trace w ++ evs
       /\ instrument_calls evs
          = setup_calls py_format (dict_get data "compliance" (PFloat 0.1))
            ++ flat_map (step_calls py_format) levels_0_5_11 ++ [output_off].
Proof.
  intros Htype Hdata Hstart Hstop Hsteps Hrun Hok.
  split; [vm_compute; reflexivity |].
  split; [vm_compute; reflexivity |].
  destruct (sweep_success d data w response Htype Hdata Hrun Hok)
    as (voltages & results & evs & Hvolt & Hresp & Hsets & Htr & Hcalls).
  rewrite Hsteps in Hvolt.
  assert (Hlevels : voltages = levels_0_5_11).
  { destruct Hstart as [Hs | Hs], Hstop as [Ht | Ht];
      rewrite Hs, Ht in Hvolt; vm_compute in Hvolt;
      injection Hvolt as <-; reflexivity. }
  subst voltages.
  exists results, evs.
  repeat (split; [assumption || idtac |]); try assumption.
  apply (f_equal (@List.length pyval)) in Hsets.
  rewrite !length_map in Hsets. exact Hsets.
Qed.

(** With one step the levels cannot be computed: the division by
    [steps - 1] raises (or an operand is rejected before it). *)
Lemma one_step_raises (start_v stop_v : pyval) :
  exists e, sweep_voltages start_v stop_v (PInt 1) = inl e.
Proof.
  unfold sweep_voltages.
  change (py_range (PInt 1)) with (@inr exn _ [0]).
  cbn [ebind comprehension]. unfold sweep_level.
  destruct (py_sub stop_v start_v) as [e | span]; cbn [ebind]; [eauto |].
  destruct span as [x | f].
  - cbn. eauto.
  - cbn [num_mul num_arith num_to_float ebind].
    change (int_to_float 0) with (@inr exn float 0%float).
    cbn [ebind py_sub as_num num_sub num_arith Z.sub Z.add Z.opp Z.pos_sub
         num_truediv num_to_float].
    change (int_to_float 0) with (@inr exn float 0%float).
    cbn [ebind]. unfold float_truediv.
    change (0 =? 0)%float with true. cbn. eauto.
Qed.

(** With no step at all there is no level. *)
Lemma no_step_no_level (start_v stop_v : pyval) (z : Z) :
  z <= 0 -> sweep_voltages start_v stop_v (PInt z) = inr [].
Proof.
  intros Hz. unfold sweep_voltages; cbn [py_range ebind].
  replace (Z.to_nat z) with 0%nat by lia. reflexivity.
Qed.

(** C3, as the code has it. No check of [steps] precedes the hardware: the
    first write of a sweep leaves whatever [steps] is. Once the five set-up
    writes (the last switches the output on) are accepted: with
    [steps = 1] the command answers with a failure and does nothing more;
    with [steps <= 0] it writes the output off and, when that write is
    accepted, answers with a success and no result. *)
Theorem sweep_below_two_steps (d data : list (string * pyval)) (w : world)
  (z : Z) :
  has_type d "voltage_sweep" ->
  dict_get d "data" (PDict []) = PDict data ->
  dict_get data "steps" (PInt 11) = PInt z ->
  z < 2 ->
  let out := run E (process_command py_float py_format py_sleep (PDict d)) w in
  (exists evs, trace (snd out) = trace w ++ wr ":SOUR:FUNC VOLT" :: evs)
  /\ forall w1,
       run E (sweep_setup py_format
                (dict_get data "compliance" (PFloat 0.1))) w
       = (inr tt, w1) ->
       trace w1
       = trace w ++ map EvCall
                      (setup_calls py_format
                         (dict_get data "compliance" (PFloat 0.1)))
       /\ (z = 1 ->
           (exists msg, fst out = inr (error_response msg)) /\ snd out = w1)
       /\ (z <= 0 ->
           snd out = record (EvCall output_off) w1
           /\ forall r, instrument E (trace w1) output_off = inr r ->
                        fst out = inr (success_data (PList []))).
Proof.
  intros Htype Hdata Hsteps Hz out. split.
  - subst out.
    rewrite (process_command_typed _ _ _ _ _ Htype), Hdata.
    cbn [dispatch str_eq String.eqb Ascii.eqb Bool.eqb voltage_sweep py_get
         lift bind sweep_setup write try_except run].
    match goal with
    | |- context [run E ?p ?w0] =>
        destruct (run_extends E p w0) as [evs Hevs]; rewrite Hevs
    end.
    exists evs. cbn [record trace]. rewrite <- app_assoc. reflexivity.
  - intros w1 Hsetup.
    destruct (sweep_setup_done _ _ _ Hsetup) as (_ & Htr1).
    split; [exact Htr1 |].
    subst out.
    rewrite (run_sweep_command _ _ _ Htype Hdata), run_voltage_sweep.
    rewrite Hsetup, Hsteps.
    split.
    + intros ->.
      destruct (one_step_raises (dict_get data "start" (PInt 0))
                  (dict_get data "stop" (PInt 5))) as [e He].
      rewrite He. simpl. eauto.
    + intros Hz0. rewrite (no_step_no_level _ _ _ Hz0).
      cbn [sweep_loop run].
      split; [destruct (instrument E (trace w1) output_off); reflexivity |].
      intros r Hr. rewrite Hr. reflexivity.
Qed.

(** The switch-off is none of the calls of a set-up or of a step. *)
Lemma output_off_not_in_sweep (compliance : pyval) (vs : list float)
  (v : float) :
  ~ In output_off
      (setup_calls py_format compliance
       ++ flat_map (step_calls py_format) vs ++ step_calls py_format v).
Proof.
  unfold output_off. intros Hin.
  apply in_app_or in Hin. destruct Hin as [Hin | Hin].
  - simpl in Hin. intuition discriminate.
  - apply in_app_or in Hin. destruct Hin as [Hin | Hin].
    + apply in_flat_map in Hin. destruct Hin as (x & _ & Hin).
      simpl in Hin. intuition discriminate.
    + simpl in Hin. intuition discriminate.
Qed.

(** C2, as the code has it. Let the set-up of a sweep be accepted, its
    levels be [before ++ v :: after], the steps at the levels [before]
    complete with results [done], and at level [v] let the write be
    accepted and the read raise [e]. Then the command answers with the
    failure that carries the text of [e] and nothing else, though [done]
    holds one result for each level of [before]; the read is the last thing
    it did; and the output-off is not among the instrument calls it made:
    the steps left are skipped and the output stays on. *)
Theorem sweep_failure_leaves_output_on (d data : list (string * pyval))
  (w w1 w2 : world) (before after : list float) (v : float)
  (done : list pyval) (e : exn) (r : string) :
  has_type d "voltage_sweep" ->
  dict_get d "data" (PDict []) = PDict data ->
  run E (sweep_setup py_format (dict_get data "compliance" (PFloat 0.1))) w
  = (inr tt, w1) ->
  sweep_voltages (dict_get data "start" (PInt 0))
    (dict_get data "stop" (PInt 5)) (dict_get data "steps" (PInt 11))
  = inr (before ++ v :: after) ->
  run E (sweep_loop py_float py_format py_sleep
           (dict_get data "delay" (PFloat 0.1)) before []) w1
  = (inr done, w2) ->
  instrument E (trace w2) (IWrite (level_command py_format v)) = inr r ->
  py_sleep (dict_get data "delay" (PFloat 0.1)) = None ->
  instrument E
    (trace w2 ++ [EvCall (IWrite (level_command py_format v));
                  EvSleep (dict_get data "delay" (PFloat 0.1))])
    (IQuery (PStr ":READ?")) = inl e ->
  let out := run E (process_command py_float py_format py_sleep (PDict d)) w in
  fst out = inr (error_response (exn_str e))
  /\ List.length done = List.length before
  /\ exists evs,
       trace (snd out) = trace w ++ evs
       /\ last evs (EvSleep PNone) = qu ":READ?"
       /\ ~ In output_off (instrument_calls evs).
Proof.
  intros Htype Hdata Hsetup Hvolt Hloop Hwrite Hsleep Hquery out; subst out.
  rewrite (run_sweep_command _ _ _ Htype Hdata), run_voltage_sweep.
  rewrite Hsetup, Hvolt, sweep_loop_app, Hloop.
  cbn [sweep_loop]. rewrite run_bind.
  unfold sweep_step, sleep, fmt. rewrite Hsleep.
  unfold level_command in *.
  cbn [write query bind lift run record trace self].
  rewrite Hwrite. cbn [lift bind run record trace self].
  rewrite <- app_assoc. cbn [app]. rewrite Hquery.
  cbn [lift bind run fst snd trace].
  destruct (sweep_setup_done _ _ _ Hsetup) as (_ & Htr1).
  destruct (sweep_loop_done _ _ _ _ _ _ Hloop)
    as (_ & entries & evs & Hres & Hsets & Htr2 & Hcalls).
  split; [reflexivity |].
  split.
  { apply (f_equal (@List.length pyval)) in Hsets.
    rewrite !length_map in Hsets. rewrite Hres. exact Hsets. }
  exists (map EvCall (setup_calls py_format
                        (dict_get data "compliance" (PFloat 0.1)))
          ++ evs
          ++ [EvCall (IWrite (level_command py_format v));
              EvSleep (dict_get data "delay" (PFloat 0.1));
              qu ":READ?"]).
  split; [| split].
  - cbn [record trace]. rewrite Htr2, Htr1, <- !app_assoc. reflexivity.
  - rewrite app_assoc. apply last_last_3.
  - rewrite !instrument_calls_app, Hcalls.
    apply output_off_not_in_sweep.
Qed.

End SweepFacts.

(** ** Threads *)

Lemma at_most_le {A : Type} (p : prog A) (n m : nat) :
  at_most n p -> (n <= m)%nat -> at_most m p.
Proof.
  intros H; revert m; induction H; intros m Hle;
    try (constructor; auto; fail).
  destruct m as [| m]; [lia |].
  constructor; intros r; apply H0; lia.
Qed.

Section ThreadFacts.

Variable py_float : string -> result float.
Variable py_format : string -> pyval -> string.
Variable py_sleep : pyval -> option exn.
Variable E : env.

Lemma single_call_bound (d : list (string * pyval)) (type : string) :
  has_type d type -> single_call type ->
  at_most 1 (process_command py_float py_format py_sleep (PDict d)).
Proof.
  intros Htype Hsingle.
  rewrite (process_command_typed _ _ _ _ _ Htype).
  generalize (dict_get d "data" (PDict [])); intro cmd_data.
  destruct Hsingle as [-> | [-> | [-> | ->]]];
    unfold dispatch, write_command, query_command, output, read,
      take_measurement, read_failed; bound.
Qed.

(** A step uses up one call of the bound when it is an instrument call, and
    none otherwise. *)
Lemma step_bound {A : Type} (p p' : prog A) (w w' : world) (n : nat) :
  at_most n p -> step E p w = Some (p', w') ->
  exists n', at_most n' p' /\ (n' + List.length (next_call p) <= n)%nat.
Proof.
  intros H Hstep; destruct H; simpl in Hstep; inversion Hstep; subst;
    simpl; eexists; (split; [eauto |]); lia.
Qed.

Lemma calls_of_app (i : nat) (a b : list (nat * icall)) :
  calls_of i (a ++ b) = (calls_of i a + calls_of i b)%nat.
Proof. unfold calls_of; rewrite filter_app, length_app; reflexivity. Qed.

Lemma turn_within (i : nat) (m : machine) (b0 b1 : nat) :
  within m b0 b1 -> within (turn E i m) b0 b1.
Proof.
  intros (p0 & p1 & n0 & n1 & Hth & H0 & H1 & Hc0 & Hc1 & Hown).
  unfold turn. rewrite Hth.
  destruct i as [| [| i]]; simpl.
  - destruct (step E p0 (shared m)) as [[p' w'] |] eqn:Hstep.
    + destruct (step_bound _ _ _ _ _ H0 Hstep) as (n' & Hn' & Hle).
      exists p', p1, n', n1. simpl. rewrite !calls_of_app.
      repeat split; auto.
      * destruct p0; simpl in *; unfold calls_of in *; simpl; lia.
      * destruct p0; simpl in *; unfold calls_of in *; simpl; lia.
      * apply Forall_app; split; [assumption |].
        destruct p0; simpl; repeat constructor.
    + exists p0, p1, n0, n1; repeat split; auto.
  - destruct (step E p1 (shared m)) as [[p' w'] |] eqn:Hstep.
    + destruct (step_bound _ _ _ _ _ H1 Hstep) as (n' & Hn' & Hle).
      exists p0, p', n0, n'. simpl. rewrite !calls_of_app.
      repeat split; auto.
      * destruct p1; simpl in *; unfold calls_of in *; simpl; lia.
      * destruct p1; simpl in *; unfold calls_of in *; simpl; lia.
      * apply Forall_app; split; [assumption |].
        destruct p1; simpl; repeat constructor.
    + exists p0, p1, n0, n1; repeat split; auto.
  - destruct i; simpl; exists p0, p1, n0, n1; repeat split; auto.
Qed.

Lemma sched_within (order : list nat) (m : machine) (b0 b1 : nat) :
  within m b0 b1 -> within (sched E order m) b0 b1.
Proof.
  revert m; induction order as [| i order IH]; intros m H; simpl; auto.
  apply IH, turn_within, H.
Qed.

(** Calls of two threads, at most one each, are in one of the two orders. *)
Lemma one_call_each_serialized (cs : list (nat * icall)) :
  Forall (fun c => (fst c < 2)%nat) cs ->
  (calls_of 0 cs <= 1)%nat -> (calls_of 1 cs <= 1)%nat ->
  serialized cs = true.
Proof.
  intros Hown H0 H1.
  destruct cs as [| [a ca] [| [b cb] [| [c cc] cs]]]; try reflexivity.
  - inversion Hown as [| ? ? Ha Hown1]; inversion Hown1 as [| ? ? Hb _]; subst.
    simpl in Ha, Hb.
    destruct a as [| [| a]], b as [| [| b]]; try lia;
      unfold calls_of in *; simpl in *; try lia; reflexivity.
  - inversion Hown as [| ? ? Ha Hown1]; inversion Hown1 as [| ? ? Hb Hown2];
      inversion Hown2 as [| ? ? Hc _]; subst.
    simpl in Ha, Hb, Hc.
    destruct a as [| [| a]], b as [| [| b]], c as [| [| c]]; try lia;
      unfold calls_of in *; simpl in *; lia.
Qed.

(** C1, as the code has it. Nothing guards [process_command]: the calls of
    two sessions reach the instrument in the order the threads happen to
    run. For two commands that make one instrument call each (write, query,
    read, output), every schedule gives a sequence of whole commands; a
    command of several calls, such as a sweep, has no such protection. *)
Theorem single_call_commands_serialize (dA dB : list (string * pyval))
  (typeA typeB : string) (w : world) (order : list nat) :
  has_type dA typeA -> single_call typeA ->
  has_type dB typeB -> single_call typeB ->
  serialized
    (calls (sched E order
              (Machine [process_command py_float py_format py_sleep (PDict dA);
                        process_command py_float py_format py_sleep (PDict dB)]
                 w [])))
  = true.
Proof.
  intros HtA HsA HtB HsB.
  assert (Hinit : within
                    (Machine
                       [process_command py_float py_format py_sleep (PDict dA);
                        process_command py_float py_format py_sleep (PDict dB)]
                       w []) 1 1).
  { eexists _, _, 1%nat, 1%nat. simpl.
    repeat split; eauto using single_call_bound. }
  destruct (sched_within order _ _ _ Hinit)
    as (p0 & p1 & n0 & n1 & _ & _ & _ & Hc0 & Hc1 & Hown).
  apply one_call_each_serialized; auto; lia.
Qed.

End ThreadFacts.

(** ** What programs may do *)

Lemma every_weaken {A : Type} (leaf leaf' : A -> Prop)
  (node node' : effect -> Prop) (p : prog A) :
  (forall a, leaf a -> leaf' a) -> (forall e, node e -> node' e) ->
  every leaf node p -> every leaf' node' p.
Proof.
  intros Hleaf Hnode H; induction H; constructor; auto.
Qed.

Lemma every_bind {A B : Type} (leaf : B -> Prop) (node : effect -> Prop)
  (p : prog A) (f : A -> prog B) :
  every (fun _ => True) node p -> (forall a, every leaf node (f a)) ->
  every leaf node (bind p f).
Proof.
  intros Hp Hf; induction Hp; simpl; try (constructor; auto); auto.
Qed.

Lemma every_try {A : Type} (leaf : A -> Prop) (node : effect -> Prop)
  (p : prog A) (h : exn -> prog A) :
  every leaf node p -> (forall e, every leaf node (h e)) ->
  every leaf node (try_except p h).
Proof.
  intros Hp Hh; induction Hp; simpl; try (constructor; auto); auto.
Qed.

Section EveryFacts.

Variable E : env.

(** What is returned satisfies [leaf]. *)
Lemma run_every_leaf {A : Type} (leaf : A -> Prop) (node : effect -> Prop)
  (p : prog A) (w : world) (a : A) :
  every leaf node p -> fst (run E p w) = inr a -> leaf a.
Proof.
  intros H; revert w; induction H; intro w; simpl; eauto;
    intros Heq; inversion Heq; subst; assumption.
Qed.

(** What is added to the trace records allowed effects only. *)
Lemma run_every_trace {A : Type} (leaf : A -> Prop) (node : effect -> Prop)
  (p : prog A) (w : world) :
  every leaf node p ->
  exists evs,
    trace (snd (run E p w)) = trace w ++ evs
    /\ Forall (fun ev => node (effect_of ev)) evs.
Proof.
  intros H; revert w; induction H; intro w; simpl;
    try (exists []; rewrite app_nil_r; split; [reflexivity | constructor]);
    try match goal with
        | IH : forall x w, exists _, _ |- context [run E (?k ?x) ?w'] =>
            destruct (IH x w') as (evs & Hevs & Hall)
        | IH : forall w, exists _, _ |- context [run E ?k ?w'] =>
            destruct (IH w') as (evs & Hevs & Hall)
        end;
    try (rewrite Hevs; simpl; rewrite <- ?app_assoc; eexists;
         split; [reflexivity |]; simpl; auto).
Qed.

(** A part of the server object that no allowed assignment changes is
    what it was. *)
Lemma run_every_self {A X : Type} (leaf : A -> Prop)
  (node : effect -> Prop) (part : server -> X) (p : prog A) (w : world) :
  every leaf node p ->
  (forall f, node (FSet f) -> forall s, part (f s) = part s) ->
  part (self (snd (run E p w))) = part (self w).
Proof.
  intros H Hset; revert w; induction H; intro w; simpl; auto;
    try match goal with
        | IH : forall x w, _ = _ |- context [run E (?k ?x) ?w'] =>
            rewrite (IH x w'); reflexivity
        | IH : forall w, _ = _ |- context [run E ?k ?w'] =>
            rewrite (IH w'); simpl; auto
        end.
Qed.

End EveryFacts.

Lemma sent_app (a b : list event) : sent (a ++ b) = sent a ++ sent b.
Proof.
  induction a as [| ev a IH]; simpl; [reflexivity |].
  destruct ev; simpl; rewrite ?IH; reflexivity.
Qed.

(** Events that are no instrument call, no send, no log: nothing shows in
    the corresponding part of the trace. *)
Lemma no_call_events (node : effect -> Prop) (evs : list event) :
  (forall c, ~ node (FCall c)) ->
  Forall (fun ev => node (effect_of ev)) evs -> instrument_calls evs = [].
Proof.
  intros Hno H; induction H as [| ev evs Hev _ IH]; simpl; [reflexivity |].
  destruct ev; simpl in *; auto. destruct (Hno _ Hev).
Qed.

Lemma no_send_events (node : effect -> Prop) (evs : list event) :
  (forall r, ~ node (FSend r)) ->
  Forall (fun ev => node (effect_of ev)) evs -> sent evs = [].
Proof.
  intros Hno H; induction H as [| ev evs Hev _ IH]; simpl; [reflexivity |].
  destruct ev; simpl in *; auto. destruct (Hno _ Hev).
Qed.

Section CommandShape.

Variable py_float : string -> result float.
Variable py_format : string -> pyval -> string.
Variable py_sleep : pyval -> option exn.

Lemma sweep_loop_every (node : effect -> Prop) (delay : pyval)
  (vs : list float) :
  (forall c, node (FCall c)) -> (forall d, node (FSleep d)) -> node FDate ->
  forall acc,
    every (fun _ => True) node
      (sweep_loop py_float py_format py_sleep delay vs acc).
Proof.
  intros Hcall Hsleep Hdate.
  induction vs as [| v vs IH]; intro acc; [constructor; exact I |].
  cbn [sweep_loop]. apply every_bind; [| intros; apply IH].
  unfold sweep_step, sleep.
  destruct (py_sleep delay); walk; auto.
Qed.

(** A sweep assigns nothing and sends nothing; what it returns is a
    response. *)
Lemma voltage_sweep_every (cmd_data : pyval) :
  every well_formed pure_effect
    (voltage_sweep py_float py_format py_sleep cmd_data).
Proof.
  unfold voltage_sweep, sweep_setup; walk.
  apply every_bind; [apply sweep_loop_every; simpl; auto | intros; walk].
Qed.

(** The branches other than [read] and [set_fast_mode] assign nothing. *)
Lemma dispatch_pure (cmd_type cmd_data : pyval) :
  str_eq cmd_type "read" = false ->
  str_eq cmd_type "set_fast_mode" = false ->
  every well_formed pure_effect
    (dispatch py_float py_format py_sleep cmd_type cmd_data).
Proof.
  intros Hread Hset. unfold dispatch. rewrite Hread, Hset.
  repeat match goal with
         | |- every _ _ (if ?b then _ else _) => destruct b
         end;
    try apply voltage_sweep_every;
    unfold write_command, query_command, setup_voltage_source,
      setup_current_source, output, get_status, reset;
    walk.
Qed.

Lemma dispatch_every (cmd_type cmd_data : pyval) :
  every well_formed command_effect
    (dispatch py_float py_format py_sleep cmd_type cmd_data).
Proof.
  destruct (str_eq cmd_type "read") eqn:Hread;
    [| destruct (str_eq cmd_type "set_fast_mode") eqn:Hset].
  - unfold dispatch. rewrite Hread.
    repeat match goal with
           | |- every _ _ (if ?b then _ else _) => destruct b
           end;
      unfold write_command, query_command, read, take_measurement,
        read_failed;
      walk.
  - unfold dispatch. rewrite Hread, Hset.
    repeat match goal with
           | |- every _ _ (if ?b then _ else _) => destruct b
           end;
      try (apply (every_weaken well_formed well_formed pure_effect);
           [auto | intros [] He; simpl in *; tauto
           | apply voltage_sweep_every]);
      unfold write_command, query_command, setup_voltage_source,
        setup_current_source, output, get_status, reset,
        set_fast_mode_command;
      walk.
  - apply (every_weaken well_formed well_formed pure_effect);
      [auto | intros [] He; simpl in *; tauto
      | apply dispatch_pure; assumption].
Qed.

(** [process_command], whatever it is given. *)
Lemma process_command_every (command : pyval) :
  every well_formed command_effect
    (process_command py_float py_format py_sleep command).
Proof.
  unfold process_command.
  destruct command; simpl; try constructor.
  apply every_try; [apply dispatch_every | intros; walk].
Qed.

End CommandShape.

Lemma last_event_app (h : list event) (ev : event) :
  last_event (h ++ [ev]) = Some ev.
Proof. unfold last_event. rewrite map_app. apply last_last. Qed.

(** ** The dispatcher on any request *)

Section DispatcherFacts.

Variable py_float : string -> result float.
Variable py_format : string -> pyval -> string.
Variable py_sleep : pyval -> option exn.
Variable E : env.

(** X1. A request whose type is none of the ten command types (a missing
    type, or a type that is no string, included) is answered with the
    failure that names the type; nothing is recorded in the trace and the
    server object is what it was. *)
Theorem unknown_command_rejected (d : list (string * pyval)) (w : world) :
  is_known (dict_get d "type" (PStr EmptyString)) = false ->
  run E (process_command py_float py_format py_sleep (PDict d)) w
  = (inr (error_response
            ("Unknown command type: "
             +++ py_format EmptyString
                   (dict_get d "type" (PStr EmptyString)))), w).
Proof.
  unfold process_command; cbn [py_get lift bind].
  generalize (dict_get d "type" (PStr EmptyString)); intros cmd_type.
  unfold is_known, known_types; cbn [existsb]; intros H.
  repeat (apply orb_false_elim in H; destruct H as [?H H]).
  unfold dispatch.
  repeat match goal with
         | Hs : str_eq cmd_type _ = false |- _ => rewrite Hs; clear Hs
         end.
  reflexivity.
Qed.

(** X2. When the [data] of a request is not an object, a command that
    reads a field of it (write, query, the two set-ups, output, sweep,
    set_fast_mode) answers with the failure of the missing [get] method;
    nothing has reached the instrument and the server object is what it
    was. *)
Theorem malformed_data_rejected (d : list (string * pyval)) (type : string)
  (w : world) :
  has_type d type ->
  In type data_types ->
  is_object (dict_get d "data" (PDict [])) = false ->
  run E (process_command py_float py_format py_sleep (PDict d)) w
  = (inr (error_response (no_get (dict_get d "data" (PDict [])))), w).
Proof.
  intros Htype Hin.
  rewrite (process_command_typed _ _ _ _ _ Htype).
  generalize (dict_get d "data" (PDict [])); intros cmd_data Hobj.
  unfold data_types in Hin; simpl in Hin.
  repeat (destruct Hin as [<- | Hin]); try contradiction;
    destruct cmd_data; try discriminate Hobj; reflexivity.
Qed.

(** X3. No command stops the server, moves the time of the last report or
    sends anything on a socket; and a command other than [read] and
    [set_fast_mode] leaves the whole server object, flag and counters, as
    it was, whatever the instrument does. *)
Theorem commands_keep_the_server (d : list (string * pyval)) (w : world) :
  let out := run E (process_command py_float py_format py_sleep (PDict d)) w in
  running (self (snd out)) = running (self w)
  /\ last_stats_time (self (snd out)) = last_stats_time (self w)
  /\ sent (trace (snd out)) = sent (trace w)
  /\ (str_eq (dict_get d "type" (PStr EmptyString)) "read" = false ->
      str_eq (dict_get d "type" (PStr EmptyString)) "set_fast_mode" = false ->
      self (snd out) = self w).
Proof.
  intros out; subst out.
  pose proof (process_command_every py_float py_format py_sleep (PDict d))
    as Hevery.
  split; [| split; [| split]].
  - apply (run_every_self E _ _ running _ _ Hevery).
    intros f [[v ->] | [[n ->] | [n ->]]] s; reflexivity.
  - apply (run_every_self E _ _ last_stats_time _ _ Hevery).
    intros f [[v ->] | [[n ->] | [n ->]]] s; reflexivity.
  - destruct (run_every_trace E _ _ _ w Hevery) as (evs & -> & Hall).
    rewrite sent_app, (no_send_events command_effect evs), app_nil_r; auto.
  - intros Hread Hset.
    unfold process_command; cbn [py_get lift bind].
    apply (run_every_self E well_formed pure_effect (fun s => s)).
    + apply every_try; [apply dispatch_pure; assumption | intros; walk].
    + intros f [].
Qed.

(** X4. Every decoded object is answered: [process_command] returns, and
    what it returns is a success with a message, a success with data, or a
    failure with a message. *)
Theorem responses_well_formed (d : list (string * pyval)) (w : world) :
  exists response,
    fst (run E (process_command py_float py_format py_sleep (PDict d)) w)
    = inr response
    /\ well_formed response.
Proof.
  destruct (process_command_returns py_float py_format py_sleep E d w)
    as [response Hresp].
  exists response; split; [exact Hresp |].
  exact (run_every_leaf E _ _ _ _ _
           (process_command_every py_float py_format py_sleep (PDict d))
           Hresp).
Qed.

Lemma voltage_sweep_data (cmd_data : pyval) :
  every has_data pure_effect
    (voltage_sweep py_float py_format py_sleep cmd_data).
Proof.
  unfold voltage_sweep, sweep_setup; walk.
  apply every_bind; [apply sweep_loop_every; simpl; auto | intros; walk].
Qed.

(** X5. The response to a write, a set-up, an output, a reset or a
    set_fast_mode command carries a message whether it is a success or a
    failure; the response to a query, a read, a sweep or a status command
    carries data when it is a success and a message when it is a failure.
    These are the entries the client reads. *)
Theorem response_carries_what_the_client_reads (d : list (string * pyval))
  (type : string) (w : world) (response : pyval) :
  has_type d type ->
  fst (run E (process_command py_float py_format py_sleep (PDict d)) w)
  = inr response ->
  (In type message_types -> has_message response)
  /\ (In type answer_types -> has_data response).
Proof.
  intros Htype.
  rewrite (process_command_typed _ _ _ _ _ Htype).
  generalize (dict_get d "data" (PDict [])); intros cmd_data Hrun.
  split; intros Hin; simpl in Hin;
    repeat (destruct Hin as [<- | Hin]); try contradiction;
    refine (run_every_leaf E _ (fun _ => True) _ _ _ _ Hrun);
    (apply every_try; [| intros; walk]);
    try (apply (every_weaken has_data has_data pure_effect);
         [auto | auto | apply voltage_sweep_data]);
    unfold dispatch, write_command, query_command, setup_voltage_source,
      setup_current_source, output, get_status, reset,
      set_fast_mode_command, read, take_measurement, read_failed;
    walk.
Qed.

End DispatcherFacts.

(** ** The single commands *)

Section CommandFacts.

Variable py_float : string -> result float.
Variable py_format : string -> pyval -> string.
Variable py_sleep : pyval -> option exn.
Variable E : env.

#[local] Arguments Nat.ltb : simpl never.
#[local] Arguments float_truediv : simpl never.

(** X6. A voltage-source set-up sends its writes in the order function,
    mode, level, range, sense function, compliance, with the defaults 0,
    AUTO and 0.1 for the fields the request leaves out; the range is
    written exactly when it is not AUTO. It stops at the first write the
    instrument refuses, so what was sent is always a beginning of that
    list, and a success means the whole list was sent. *)
Theorem setup_voltage_source_calls (d data : list (string * pyval))
  (w : world) :
  has_type d "setup_voltage_source" ->
  dict_get d "data" (PDict []) = PDict data ->
  let voltage := dict_get data "voltage" (PInt 0) in
  let range_val := dict_get data "range" (PStr "AUTO") in
  let compliance := dict_get data "compliance" (PFloat 0.1) in
  let calls := voltage_source_calls py_format voltage range_val compliance in
  let out := run E (process_command py_float py_format py_sleep (PDict d)) w in
  (exists evs, trace (snd out) = trace w ++ evs /\ begins calls evs)
  /\ (forall response,
        fst out = inr response -> succeeded response = true ->
        response = success_message
                     ("Voltage source setup: " +++ py_format EmptyString voltage
                      +++ "V, compliance: "
                      +++ py_format EmptyString compliance +++ "A")
        /\ trace (snd out) = trace w ++ map EvCall calls).
Proof.
  intros Htype Hdata voltage range_val compliance calls out.
  subst out calls voltage range_val compliance.
  rewrite (process_command_typed _ _ _ _ _ Htype), Hdata.
  unfold dispatch, setup_voltage_source, voltage_source_calls, begins, fmt.
  crunch.
  all: try match goal with
           | H : negb _ = _ |- _ => simpl in H; discriminate H
           end.
  all: (split;
        [ eexists; split; [rewrite <- ?app_assoc; reflexivity |];
          eexists; simpl; reflexivity
        | intros response Hresp Hok; injection Hresp as <-;
          try (vm_compute in Hok; discriminate Hok);
          (split; [reflexivity | rewrite <- ?app_assoc; reflexivity]) ]).
Qed.

(** X7. A current-source set-up sends its writes in the order function,
    mode, level, range, sense function, compliance, with the defaults 0,
    AUTO and 10; the range is written exactly when it is not AUTO. What was
    sent is always a beginning of that list, and a success means the whole
    list was sent. *)
Theorem setup_current_source_calls (d data : list (string * pyval))
  (w : world) :
  has_type d "setup_current_source" ->
  dict_get d "data" (PDict []) = PDict data ->
  let current := dict_get data "current" (PInt 0) in
  let range_val := dict_get data "range" (PStr "AUTO") in
  let compliance := dict_get data "compliance" (PInt 10) in
  let calls := current_source_calls py_format current range_val compliance in
  let out := run E (process_command py_float py_format py_sleep (PDict d)) w in
  (exists evs, trace (snd out) = trace w ++ evs /\ begins calls evs)
  /\ (forall response,
        fst out = inr response -> succeeded response = true ->
        response = success_message
                     ("Current source setup: " +++ py_format EmptyString current
                      +++ "A, compliance: "
                      +++ py_format EmptyString compliance +++ "V")
        /\ trace (snd out) = trace w ++ map EvCall calls).
Proof.
  intros Htype Hdata current range_val compliance calls out.
  subst out calls current range_val compliance.
  rewrite (process_command_typed _ _ _ _ _ Htype), Hdata.
  unfold dispatch, setup_current_source, current_source_calls, begins, fmt.
  crunch.
  all: try match goal with
           | H : negb _ = _ |- _ => simpl in H; discriminate H
           end.
  all: (split;
        [ eexists; split; [rewrite <- ?app_assoc; reflexivity |];
          eexists; simpl; reflexivity
        | intros response Hresp Hok; injection Hresp as <-;
          try (vm_compute in Hok; discriminate Hok);
          (split; [reflexivity | rewrite <- ?app_assoc; reflexivity]) ]).
Qed.

(** X8. A status command only queries: it never writes to the instrument.
    When it succeeds it has made exactly the three queries [*IDN?],
    [:OUTP?] and [:SOUR:FUNC?] in this order and read the date once; the
    output is reported ON exactly when the stripped answer to [:OUTP?] is
    the text 1, and the flag and the two counters are reported as the
    server holds them. *)
Theorem get_status_reports (d : list (string * pyval)) (w : world) :
  has_type d "get_status" ->
  let out := run E (process_command py_float py_format py_sleep (PDict d)) w in
  (exists evs,
      trace (snd out) = trace w ++ evs
      /\ Forall (fun c => is_write c = false) (instrument_calls evs))
  /\ (forall response,
        fst out = inr response -> succeeded response = true ->
        exists idn output_state source_func stamp,
          trace (snd out)
          = trace w ++ [qu "*IDN?"; qu ":OUTP?"; qu ":SOUR:FUNC?";
                        EvDate stamp]
          /\ instrument E (trace w ++ [qu "*IDN?"]) (IQuery (PStr ":OUTP?"))
             = inr output_state
          /\ response = success_data (PDict
               [("instrument", PStr (strip idn));
                ("output", PStr (if String.eqb (strip output_state) "1"
                                 then "ON" else "OFF"));
                ("source_function", PStr (strip source_func));
                ("timestamp", PStr stamp);
                ("fast_mode", fast_mode (self w));
                ("read_count", PInt (read_count (self w)));
                ("error_count", PInt (error_count (self w)))])).
Proof.
  intros Htype out; subst out.
  rewrite (process_command_typed _ _ _ _ _ Htype).
  unfold dispatch, get_status, qu; simpl.
  repeat match goal with
         | |- context [instrument E ?h ?c] =>
             let H := fresh "Hreply" in
             destruct (instrument E h c) eqn:H; simpl
         end.
  all: (split;
        [ eexists; split; [rewrite <- ?app_assoc; reflexivity |];
          simpl; repeat constructor
        | intros response Hresp Hok; injection Hresp as <-;
          try (vm_compute in Hok; discriminate Hok) ]).
  do 4 eexists.
  split; [| split; reflexivity].
  rewrite <- ?app_assoc; reflexivity.
Qed.

(** X9. A set_fast_mode command stores the requested value (true when the
    request names none) in the flag before it writes anything, so the flag
    holds that value afterwards whether the instrument accepted the writes
    or not. A success means the four fast-mode settings were written when
    the value is truthy, and the two writes that switch auto-zero and the
    display back on when it is not. *)
Theorem set_fast_mode_stores_the_flag (d data : list (string * pyval))
  (w : world) :
  has_type d "set_fast_mode" ->
  dict_get d "data" (PDict []) = PDict data ->
  let enabled := dict_get data "enabled" (PBool true) in
  let out := run E (process_command py_float py_format py_sleep (PDict d)) w in
  self (snd out) = set_fast_mode enabled (self w)
  /\ (forall response,
        fst out = inr response -> succeeded response = true ->
        response = success_message
                     ("Fast mode " +++ (if truthy enabled
                                        then "enabled" else "disabled"))
        /\ trace (snd out)
           = trace w ++ map wr (if truthy enabled
                                then fast_settings else normal_settings)).
Proof.
  intros Htype Hdata enabled out; subst out enabled.
  rewrite (process_command_typed _ _ _ _ _ Htype), Hdata.
  unfold dispatch, set_fast_mode_command; simpl.
  destruct (truthy (dict_get data "enabled" (PBool true))) eqn:Hfast; simpl.
  all: repeat match goal with
         | |- context [instrument E ?h ?c] =>
             let H := fresh "Hreply" in
             destruct (instrument E h c) eqn:H; simpl
         end.
  all: rewrite ?Hfast.
  all: (split; [reflexivity |]).
  all: intros response Hresp Hok; injection Hresp as <-;
       try (vm_compute in Hok; discriminate Hok);
       (split; [reflexivity | rewrite <- ?app_assoc; reflexivity]).
Qed.

(** X10. A status command that follows a set_fast_mode command in a
    session reports, when it succeeds, the very value that was requested,
    also when the set_fast_mode command itself answered with a failure. *)
Theorem status_reports_the_requested_mode
  (d1 data d2 : list (string * pyval)) (w w' : world) (r1 r2 : pyval) :
  has_type d1 "set_fast_mode" ->
  dict_get d1 "data" (PDict []) = PDict data ->
  has_type d2 "get_status" ->
  run E (in_turn
           [process_command py_float py_format py_sleep (PDict d1);
            process_command py_float py_format py_sleep (PDict d2)]) w
  = (inr [r1; r2], w') ->
  succeeded r2 = true ->
  dict_get (body r2) "fast_mode" PNone
  = dict_get data "enabled" (PBool true).
Proof.
  intros Htype1 Hdata Htype2.
  rewrite (process_command_typed _ _ _ _ _ Htype1), Hdata.
  rewrite (process_command_typed _ _ _ _ _ Htype2).
  unfold in_turn, dispatch, set_fast_mode_command, get_status; simpl.
  destruct (truthy (dict_get data "enabled" (PBool true))) eqn:Hfast; simpl.
  all: repeat match goal with
         | |- context [instrument E ?h ?c] =>
             let H := fresh "Hreply" in
             destruct (instrument E h c) eqn:H; simpl
         end.
  all: intros Hrun Hok; injection Hrun as <- <- <-;
       try (vm_compute in Hok; discriminate Hok); reflexivity.
Qed.

(** X11. A read command makes exactly one instrument call, the query
    [:READ?], whatever the mode, the answer and the outcome; it never
    writes to the instrument. *)
Theorem read_makes_one_query (d : list (string * pyval)) (w : world) :
  has_type d "read" ->
  exists evs,
    trace (snd (run E (process_command py_float py_format py_sleep
                         (PDict d)) w))
    = trace w ++ evs
    /\ instrument_calls evs = [IQuery (PStr ":READ?")].
Proof.
  intros Htype.
  rewrite (process_command_typed _ _ _ _ _ Htype).
  unfold dispatch, read, take_measurement, read_failed; simpl.
  crunch.
  all: eexists; (split; [rewrite <- ?app_assoc; reflexivity | reflexivity]).
Qed.

End CommandFacts.

(** ** Sessions *)

Section SessionFacts.

Variable py_float : string -> result float.
Variable py_format : string -> pyval -> string.
Variable py_sleep : pyval -> option exn.
Variable E : env.

#[local] Arguments process_command : simpl never.

(** What the loop body does with a decoded object: the command is logged
    unless it is a read, processed, and its response sent; a send that
    raises makes the body send the failure, and a second send that raises
    leaves the body. *)
Lemma run_serve_object (address : pyval) (d : list (string * pyval))
  (w : world) :
  let w0 := if negb (str_eq (dict_get d "type" PNone) "read")
            then record (EvLog INFO ("Command from " +++ py_format EmptyString address
                                     +++ ": " +++ py_format EmptyString (PDict d))) w
            else w in
  exists response w1,
    run E (process_command py_float py_format py_sleep (PDict d)) w0
    = (inr response, w1)
    /\ run E (serve py_float py_format py_sleep address (PDict d)) w
       = match socket_send E (trace w1) response with
         | None => (inr tt, record (EvSend response) w1)
         | Some e =>
             let failure := error_response (exn_str e) in
             let w2 := record (EvSend response) w1 in
             match socket_send E (trace w2) failure with
             | None =>
                 (inr tt,
                  record (EvLog ERROR ("Error processing command: "
                                       +++ exn_str e))
                    (record (EvSend failure) w2))
             | Some e' => (inl e', record (EvSend failure) w2)
             end
         end.
Proof.
  intros w0.
  destruct (process_command_returns py_float py_format py_sleep E d w0)
    as [response Hresp].
  destruct (run E (process_command py_float py_format py_sleep (PDict d)) w0)
    as [r w1] eqn:Hrun.
  simpl in Hresp; subst r.
  exists response, w1; split; [reflexivity |].
  unfold serve. rewrite run_try_except.
  cbn [py_get lift bind]. rewrite run_bind.
  assert (Hlog :
    run E (if negb (str_eq (dict_get d "type" PNone) "read")
           then log INFO ("Command from " +++ fmt py_format address
                          +++ ": " +++ fmt py_format (PDict d))
           else Ret tt) w = (inr tt, w0)).
  { subst w0; destruct (negb _); reflexivity. }
  rewrite Hlog, run_bind, Hrun.
  unfold send; simpl.
  destruct (socket_send E (trace w1) response) as [e |]; simpl;
    [| reflexivity].
  destruct (socket_send E _ (error_response (exn_str e))); reflexivity.
Qed.



(** X13. No exception leaves [handle_client]: whatever the socket delivers
    and whatever happens on the way, it returns, and the last thing it does
    is to log that the client has disconnected; when the loop was left by
    an exception, the record before that one is the error with the text of
    the exception. *)
Theorem handle_client_ends (address : pyval) (inbox : list incoming)
  (w : world) :
  let out := run E (handle_client py_float py_format py_sleep address inbox) w in
  let goodbye := EvLog INFO ("Client " +++ py_format EmptyString address
                             +++ " disconnected") in
  fst out = inr tt
  /\ exists evs,
       trace (snd out) = trace w ++ evs ++ [goodbye]
       /\ forall e,
            fst (run E (session py_float py_format py_sleep address inbox) w)
            = inl e ->
            exists before,
              evs = before ++ [EvLog ERROR ("Client "
                                            +++ py_format EmptyString address
                                            +++ " error: " +++ exn_str e)].
Proof.
  intros out goodbye; subst out goodbye.
  unfold handle_client. rewrite run_bind, run_try_except.
  destruct (run_extends E (session py_float py_format py_sleep address inbox) w)
    as [evs Hevs].
  destruct (run E (session py_float py_format py_sleep address inbox) w)
    as [[e | []] w1]; simpl in Hevs |- *.
  - split; [reflexivity |].
    exists (evs ++ [EvLog ERROR ("Client " +++ py_format EmptyString address
                                 +++ " error: " +++ exn_str e)]); split.
    + rewrite Hevs, <- !app_assoc. reflexivity.
    + intros e' He'; injection He' as <-. exists evs; reflexivity.
  - split; [reflexivity |].
    exists evs; split.
    + rewrite Hevs, <- !app_assoc. reflexivity.
    + intros e' He'; discriminate He'.
Qed.

(** With a socket on which every send raises, the loop body leaves with
    the exception of the send. *)
Lemma serve_fails (address command : pyval) (w : world) (e : exn) :
  (forall h r, socket_send E h r = Some e) ->
  exists w1,
    run E (serve py_float py_format py_sleep address command) w = (inl e, w1).
Proof.
  intros Hsend.
  destruct command as [| b | z | f | s | l | d].
  1-6: (unfold serve, send; simpl; rewrite Hsend; simpl;
        eexists; reflexivity).
  destruct (run_serve_object address d w) as (response & w1 & _ & Hserve).
  rewrite Hserve, Hsend; simpl; rewrite Hsend.
  eexists; reflexivity.
Qed.

(** X14. When the client has gone and every send raises, the first message
    ends the connection: the command is still processed, the messages
    behind it are never looked at, and the exception of the send is logged
    as the client's error. *)
Theorem failed_send_ends_the_session (address : pyval) (m : incoming)
  (rest : list incoming) (w : world) (e : exn) :
  running (self w) = true ->
  is_message m ->
  (forall h r, socket_send E h r = Some e) ->
  let out := run E (handle_client py_float py_format py_sleep address
                      (m :: rest)) w in
  out = run E (handle_client py_float py_format py_sleep address [m]) w
  /\ fst out = inr tt
  /\ In (ERROR, "Client " +++ py_format EmptyString address +++ " error: "
                +++ exn_str e)
        (log_records (trace (snd out))).
Proof.
  intros Hrunning Hm Hsend out; subst out.
  assert (Hsession : forall tail, exists w1,
    run E (session py_float py_format py_sleep address (m :: tail)) w
    = (inl e, w1)
    /\ forall tail',
         run E (session py_float py_format py_sleep address (m :: tail')) w
         = (inl e, w1)).
  { intros tail.
    destruct m as [e0 | | | command]; try contradiction.
    - eexists; split; [| intros tail'];
        cbn [session]; cbn [run bind get_self]; rewrite Hrunning;
        cbn [negb]; unfold send; cbn [bind run]; rewrite Hsend;
        reflexivity.
    - destruct (serve_fails address command w e Hsend) as [w1 Hserve].
      exists w1; split; [| intros tail'];
        cbn [session]; cbn [run bind get_self]; rewrite Hrunning;
        cbn [negb]; rewrite run_bind, Hserve; reflexivity. }
  destruct (Hsession rest) as (w1 & Hrun & Hany).
  unfold handle_client.
  rewrite !run_bind, !run_try_except, Hrun, (Hany []).
  split; [reflexivity |].
  simpl. split; [reflexivity |].
  rewrite !log_records_app, !in_app_iff; simpl; auto 10.
Qed.

End SessionFacts.

(** ** The statistics thread *)

Section StatsFacts.

Variable py_format : string -> pyval -> string.
Variable E : env.

#[local] Arguments num_truediv : simpl never.
#[local] Arguments int_truediv : simpl never.

Lemma stats_tick_every :
  every (fun _ => True) stats_effect (stats_tick py_format).
Proof. unfold stats_tick, set_self; walk. Qed.

Lemma stats_reporter_every (rounds : nat) :
  every (fun _ => True) stats_effect (stats_reporter py_format rounds).
Proof.
  induction rounds as [| n IH]; [constructor; exact I |].
  cbn [stats_reporter get_self bind].
  constructor; [exact I |]. intros s.
  destruct (running s); [| constructor; exact I].
  apply every_bind; [apply stats_tick_every | intros; apply IH].
Qed.

Lemma stats_tick_idle (w : world) :
  read_count (self w) <= 0 ->
  run E (stats_tick py_format) w = (inr tt, record (EvSleep (PInt 30)) w).
Proof.
  intros Hidle. apply Z.ltb_ge in Hidle.
  unfold stats_tick. cbn [run bind get_self record self trace].
  rewrite Hidle. reflexivity.
Qed.

(** X15. While no read has been counted the statistics thread only sleeps:
    thirty seconds a round for as long as the server runs, no clock read,
    no record logged, and the counters and the time of the last report
    left as they are. *)
Theorem stats_reporter_idle (rounds : nat) (w : world) :
  read_count (self w) <= 0 ->
  run E (stats_reporter py_format rounds) w
  = (inr tt,
     World (self w)
       (trace w ++ repeat (EvSleep (PInt 30))
                     (if running (self w) then rounds else 0%nat))).
Proof.
  revert w.
  induction rounds as [| n IH]; intros w Hidle.
  - simpl. destruct (running (self w)), w; simpl; rewrite app_nil_r;
      reflexivity.
  - cbn [stats_reporter get_self bind run].
    destruct (running (self w)) eqn:Hrunning.
    + rewrite run_bind, (stats_tick_idle w Hidle).
      rewrite (IH (record (EvSleep (PInt 30)) w) Hidle).
      cbn [record self trace]. rewrite Hrunning, <- app_assoc. reflexivity.
    + destruct w; simpl; rewrite app_nil_r; reflexivity.
Qed.

(** X16. The statistics thread never calls the instrument and never sends
    on a socket, and it leaves the fast-mode flag and the running flag as
    they are, however many rounds it makes and however it ends. *)
Theorem stats_reporter_keeps_off (rounds : nat) (w : world) :
  let out := run E (stats_reporter py_format rounds) w in
  fast_mode (self (snd out)) = fast_mode (self w)
  /\ running (self (snd out)) = running (self w)
  /\ exists evs,
       trace (snd out) = trace w ++ evs
       /\ instrument_calls evs = []
       /\ sent evs = [].
Proof.
  intros out; subst out.
  pose proof (stats_reporter_every rounds) as Hevery.
  split; [| split].
  - apply (run_every_self E _ _ fast_mode _ _ Hevery).
    intros f [[n ->] | [[n ->] | [t ->]]] s; reflexivity.
  - apply (run_every_self E _ _ running _ _ Hevery).
    intros f [[n ->] | [[n ->] | [t ->]]] s; reflexivity.
  - destruct (run_every_trace E _ _ _ w Hevery) as (evs & Htrace & Hall).
    exists evs; split; [exact Htrace |]; split.
    + apply (no_call_events stats_effect); [intros c [] | exact Hall].
    + apply (no_send_events stats_effect); [intros r [] | exact Hall].
Qed.

(** X17. Nothing in the statistics thread catches an exception: when the
    division of the read count by the time elapsed raises (the clock reads
    the time of the last report again, so that the time elapsed is zero),
    the thread ends with that exception at once, however many rounds were
    left; nothing is logged and the counters are not reset. *)
Theorem stats_reporter_ends_on_error (rounds : nat) (w : world) (e : exn) :
  running (self w) = true ->
  0 < read_count (self w) ->
  num_truediv (NInt (read_count (self w))) (NFloat (tick_elapsed E w))
  = inl e ->
  run E (stats_reporter py_format (S rounds)) w
  = (inl e,
     World (self w)
       (trace w ++ [EvSleep (PInt 30);
                    EvClock (time_time E (trace w ++ [EvSleep (PInt 30)]))])).
Proof.
  intros Hrunning Hreads Hrate. apply Z.ltb_lt in Hreads.
  unfold tick_elapsed in Hrate.
  cbn [stats_reporter get_self bind run]. rewrite Hrunning.
  unfold stats_tick. cbn [bind run get_self record self trace].
  rewrite Hreads. cbn [bind run clock record self trace].
  rewrite Hrate. cbn [lift bind run]. unfold record. cbn [self trace].
  rewrite <- app_assoc. reflexivity.
Qed.

End StatsFacts.

(** ** Start-up and shutdown *)

Section LifecycleFacts.

Variable py_float : string -> result float.
Variable py_format : string -> pyval -> string.
Variable py_sleep : pyval -> option exn.
Variable E : env.

(** X18. A new server holds the flag it was given, does not run, has both
    counters at zero and the time of its creation as the time of the last
    report. The connection that succeeds has made, in fast mode, the calls
    auto-zero off, display off, [*IDN?], [*RST], [*CLS], concurrent sensing
    on, elements voltage and current, in this order (the two speed settings
    come before the reset and are not written again after it), and
    otherwise [*IDN?], [*RST], [*CLS]. Whatever is raised on the way is
    logged as the failure to connect, the last thing done, and raised
    again, so that no server exists; when the resource cannot be opened no
    call is made. *)
Theorem init_connects (fast : pyval) (opened : option exn) (w : world) :
  let out := run E (init fast opened) w in
  let now := time_time E (trace w) in
  self (snd out) = Server fast false 0 0 now
  /\ (fst out = inr tt ->
      opened = None
      /\ exists evs,
           trace (snd out) = trace w ++ evs
           /\ instrument_calls evs = connect_calls fast)
  /\ (forall e,
        fst out = inl e ->
        last_event (trace (snd out))
        = Some (EvLog ERROR ("Failed to connect to instrument: "
                             +++ exn_str e)))
  /\ (forall e,
        opened = Some e ->
        fst out = inl e
        /\ trace (snd out)
           = trace w ++ [EvClock now;
                         EvLog ERROR ("Failed to connect to instrument: "
                                      +++ exn_str e)]).
Proof.
  intros out now; subst out now.
  unfold init, connect_instrument, connect_calls.
  destruct opened as [e0 |]; simpl.
  - split; [reflexivity |].
    split; [intros H; discriminate H |].
    split.
    + intros e' He'; injection He' as <-. apply last_event_app.
    + intros e' He'; injection He' as <-.
      split; [reflexivity | rewrite <- !app_assoc; reflexivity].
  - destruct (truthy fast) eqn:Hfast; simpl.
    all: repeat match goal with
           | |- context [instrument E ?h ?c] =>
               let H := fresh "Hreply" in
               destruct (instrument E h c) eqn:H; simpl
           end.
    all: rewrite ?Hfast; simpl.
    all: repeat match goal with
           | |- context [instrument E ?h ?c] =>
               let H := fresh "Hreply" in
               destruct (instrument E h c) eqn:H; simpl
           end.
    all: (split; [reflexivity |]).
    all: (split;
          [ intros H; try discriminate H;
            (split; [reflexivity |]);
            eexists; (split; [rewrite <- ?app_assoc; reflexivity |]);
            reflexivity
          |]).
    all: (split; [| intros e' He'; discriminate He']).
    all: intros e' He'; try discriminate He'; injection He' as <-.
    all: apply last_event_app.
Qed.

(** X19. [cleanup] never raises. It stops the server and changes nothing
    else in it; the first thing it does on the instrument is to switch the
    output off, and the last thing it does is to log its completion. In
    fast mode it then switches auto-zero and the display back on; a write
    that the instrument refuses ends the writes silently, so that a refused
    output-off is followed by no other write. *)
Theorem cleanup_switches_off (w : world) :
  let out := run E cleanup w in
  fst out = inr tt
  /\ self (snd out) = set_running false (self w)
  /\ exists evs,
       trace (snd out) = trace w ++ evs
       /\ last_event evs = Some (EvLog INFO "Server cleanup completed")
       /\ (exists rest, instrument_calls evs = output_off :: rest)
       /\ begins (cleanup_calls (fast_mode (self w)))
            (map EvCall (instrument_calls evs))
       /\ (forall e,
             instrument E (trace w) output_off = inl e ->
             instrument_calls evs = [output_off])
       /\ ((forall h c, exists r, instrument E h (IWrite c) = inr r) ->
           instrument_calls evs = cleanup_calls (fast_mode (self w))).
Proof.
  intros out; subst out.
  unfold cleanup, cleanup_calls, begins, output_off; simpl.
  destruct (truthy (fast_mode (self w))) eqn:Hfast.
  all: repeat match goal with
         | |- context [instrument E ?h ?c] =>
             let H := fresh "Hreply" in
             destruct (instrument E h c) eqn:H; simpl
         | |- context [truthy ?v] => rewrite Hfast; simpl
         end.
  all: (split; [reflexivity |]); (split; [reflexivity |]).
  all: eexists; (split; [rewrite <- ?app_assoc; simpl; reflexivity |]).
  all: (split; [reflexivity |]).
  all: (split; [eexists; reflexivity |]).
  all: (split; [eexists; simpl; reflexivity |]).
  all: (split; [intros e0 He0; try discriminate He0; reflexivity |]).
  all: intros Hall; try reflexivity; exfalso.
  all: repeat match goal with
         | H : instrument E ?h (IWrite ?c) = inl _ |- _ =>
             destruct (Hall h c) as [? Hr]; rewrite Hr in H; discriminate H
         end.
Qed.

(** A loop that finds the server stopped does nothing. *)
Lemma stopped_loops (address : pyval) (inbox : list incoming)
  (rounds : nat) (w : world) :
  running (self w) = false ->
  run E (session py_float py_format py_sleep address inbox) w = (inr tt, w)
  /\ run E (stats_reporter py_format rounds) w = (inr tt, w).
Proof.
  intros Hstopped; split.
  - destruct inbox; simpl; rewrite Hstopped; reflexivity.
  - destruct rounds; simpl; rewrite ?Hstopped; reflexivity.
Qed.

(** X20. Once [stop_server] or [cleanup] has run, a session that comes to
    its loop test receives nothing more and answers nothing, whatever is
    waiting on its socket, and the statistics thread makes no further
    round. *)
Theorem stopped_server_serves_nothing (address : pyval)
  (inbox : list incoming) (rounds : nat) (w : world) :
  let stopped := snd (run E stop_server w) in
  let cleaned := snd (run E cleanup w) in
  run E (session py_float py_format py_sleep address inbox) stopped
  = (inr tt, stopped)
  /\ run E (stats_reporter py_format rounds) stopped = (inr tt, stopped)
  /\ run E (session py_float py_format py_sleep address inbox) cleaned
     = (inr tt, cleaned)
  /\ run E (stats_reporter py_format rounds) cleaned = (inr tt, cleaned).
Proof.
  intros stopped cleaned.
  assert (Hstopped : running (self stopped) = false) by reflexivity.
  assert (Hcleaned : running (self cleaned) = false).
  { subst cleaned. unfold cleanup; simpl.
    repeat match goal with
           | |- context [instrument E ?h ?c] =>
               destruct (instrument E h c); simpl
           | |- context [if truthy ?v then _ else _] =>
               destruct (truthy v); simpl
           end; reflexivity. }
  destruct (stopped_loops address inbox rounds stopped Hstopped).
  destruct (stopped_loops address inbox rounds cleaned Hcleaned).
  repeat split; assumption.
Qed.

End LifecycleFacts.

(** ** The results of a sweep *)

Section SweepResults.

Variable py_float : string -> result float.
Variable py_format : string -> pyval -> string.
Variable py_sleep : pyval -> option exn.
Variable E : env.

Lemma comprehension_length {A B : Type} (f : A -> result B) (l : list A) :
  forall bs, comprehension f l = inr bs -> List.length bs = List.length l.
Proof.
  induction l as [| a l IH]; intros bs; simpl.
  - intros H; injection H as <-; reflexivity.
  - destruct (f a) as [e | b]; simpl; [discriminate |].
    destruct (comprehension f l) as [e | bs']; simpl; [discriminate |].
    intros H; injection H as <-; simpl. rewrite (IH bs'); reflexivity.
Qed.

Lemma sweep_step_keys (delay : pyval) (v : float) (w w' : world)
  (entry : pyval) :
  run E (sweep_step py_float py_format py_sleep delay v) w = (inr entry, w') ->
  entry_keys entry = sweep_keys.
Proof.
  unfold sweep_step, sleep.
  destruct (py_sleep delay) eqn:Hsleep;
    crunch; intros Hrun; inversion Hrun; subst; reflexivity.
Qed.

Lemma sweep_loop_keys (delay : pyval) (vs : list float) :
  forall (acc : list pyval) (w w' : world) (results : list pyval),
    run E (sweep_loop py_float py_format py_sleep delay vs acc) w
    = (inr results, w') ->
    Forall (fun entry => entry_keys entry = sweep_keys) acc ->
    Forall (fun entry => entry_keys entry = sweep_keys) results.
Proof.
  induction vs as [| v vs IH]; intros acc w w' results Hrun Hacc.
  - simpl in Hrun; inversion Hrun; subst; exact Hacc.
  - cbn [sweep_loop] in Hrun. rewrite run_bind in Hrun.
    destruct (run E (sweep_step py_float py_format py_sleep delay v) w)
      as [[e | entry] w1] eqn:Hstep; [discriminate Hrun |].
    apply (IH _ _ _ _ Hrun).
    apply Forall_app; split; [exact Hacc |].
    constructor; [exact (sweep_step_keys _ _ _ _ _ Hstep) | constructor].
Qed.

(** X21. A sweep over an integer number of steps that answers with a
    success returns exactly that many entries (none when the number is not
    positive), each with the keys set_voltage, measured_voltage,
    measured_current and timestamp in this order; and the number of steps
    was not one. *)
Theorem sweep_returns_one_entry_per_step (d data : list (string * pyval))
  (w : world) (response : pyval) (n : Z) :
  has_type d "voltage_sweep" ->
  dict_get d "data" (PDict []) = PDict data ->
  dict_get data "steps" (PInt 11) = PInt n ->
  fst (run E (process_command py_float py_format py_sleep (PDict d)) w)
  = inr response ->
  succeeded response = true ->
  exists results,
    response = success_data (PList results)
    /\ List.length results = Z.to_nat n
    /\ Forall (fun entry => entry_keys entry = sweep_keys) results
    /\ n <> 1.
Proof.
  intros Htype Hdata Hsteps.
  rewrite (run_sweep_command _ _ _ _ _ _ _ Htype Hdata), run_voltage_sweep.
  rewrite Hsteps.
  destruct (run E (sweep_setup _ _) w) as [[e | []] w1] eqn:Hsetup;
    [simpl; intros Hr Hok; injection Hr as <-; discriminate Hok |].
  destruct (sweep_voltages _ _ _) as [e | voltages] eqn:Hlevels;
    [simpl; intros Hr Hok; injection Hr as <-; discriminate Hok |].
  destruct (run E (sweep_loop _ _ _ _ _ _) w1) as [[e | results] w2] eqn:Hloop;
    [simpl; intros Hr Hok; injection Hr as <-; discriminate Hok |].
  destruct (instrument E (trace w2) output_off);
    simpl; intros Hr Hok; injection Hr as <-; [discriminate Hok |].
  exists results. split; [reflexivity |].
  destruct (sweep_loop_done _ _ _ _ _ _ _ _ _ _ Hloop)
    as (_ & entries & evs & Hres & Hsets & _).
  split; [| split].
  - simpl in Hres; subst entries.
    apply (f_equal (@List.length _)) in Hsets.
    rewrite !length_map in Hsets. rewrite Hsets.
    unfold sweep_voltages in Hlevels. cbn [py_range ebind] in Hlevels.
    rewrite (comprehension_length _ _ _ Hlevels), length_map, length_seq.
    reflexivity.
  - exact (sweep_loop_keys _ _ _ _ _ _ Hloop (Forall_nil _)).
  - intros ->.
    destruct (one_step_raises (dict_get data "start" (PInt 0))
                (dict_get data "stop" (PInt 5))) as [e He].
    rewrite He in Hlevels; discriminate Hlevels.
Qed.

End SweepResults.

(** * The properties on the bench

    Each property applied to a concrete request and instrument, and the runs
    that show where the code departs from its specification. All of them are
    computed with the reference runtime. *)

Section OnTheBench.

Import Bench.

(** Two single-call commands, a write and a read, under a schedule that
    alternates between the threads. *)
Lemma single_call_commands_serialize_witness :
  serialized
    (calls (sched (answering "1.5,2.0e-3") [1; 0; 1; 1; 0; 0; 1; 1; 1; 0]%nat
              (Machine [program (request "write" [("command", PStr "*CLS")]);
                        program read_request]
                 (boot true) [])))
  = true.
Proof.
  exact (single_call_commands_serialize Runtime.py_float Runtime.py_format
           Runtime.py_sleep (answering "1.5,2.0e-3")
           [("type", PStr "write"); ("data", PDict [("command", PStr "*CLS")])]
           [("type", PStr "read"); ("data", PDict [])]
           "write" "read" (boot true) [1; 0; 1; 1; 0; 0; 1; 1; 1; 0]%nat
           eq_refl (or_introl eq_refl)
           eq_refl (or_intror (or_intror (or_introl eq_refl)))).
Defined.

(** C1 fails on the code: while one session's sweep waits between setting
    its first level and measuring, another session's command goes through;
    here it switches the output off under the sweep. *)
Lemma sweep_is_interleaved :
  calls (sched (answering "1.5,2.0e-3") during_the_settle_delay two_sessions)
  = [(0%nat, IWrite (PStr ":SOUR:FUNC VOLT"));
     (0%nat, IWrite (PStr ":SOUR:VOLT:MODE FIXED"));
     (0%nat, IWrite (PStr (":SENS:FUNC " +++ quoted "CURR")));
     (0%nat, IWrite (PStr ":SENS:CURR:PROT 0.1"));
     (0%nat, IWrite (PStr ":OUTP ON"));
     (0%nat, IWrite (PStr ":SOUR:VOLT 0.0"));
     (1%nat, IWrite (PStr ":OUTP OFF"));
     (0%nat, IQuery (PStr ":READ?"))]
  /\ serialized
       (calls (sched (answering "1.5,2.0e-3") during_the_settle_delay
                 two_sessions))
     = false.
Proof. split; vm_compute; reflexivity. Qed.

(** C2 fails on the code: the second read of a sweep times out. The
    response is the bare failure, without the result of the first step, and
    the last call that reached the instrument is the read: the output is
    still on. *)
Lemma sweep_failure_counterexample :
  let out := process (failing_at 1 timeout "1.5,2.0e-3") (sweep_request [])
               (boot true) in
  fst out = inr (error_response (exn_str timeout))
  /\ instrument_calls (trace (snd out))
     = [IWrite (PStr ":SOUR:FUNC VOLT");
        IWrite (PStr ":SOUR:VOLT:MODE FIXED");
        IWrite (PStr (":SENS:FUNC " +++ quoted "CURR"));
        IWrite (PStr ":SENS:CURR:PROT 0.1");
        IWrite (PStr ":OUTP ON");
        IWrite (PStr ":SOUR:VOLT 0.0"); IQuery (PStr ":READ?");
        IWrite (PStr ":SOUR:VOLT 0.5"); IQuery (PStr ":READ?")].
Proof. split; vm_compute; reflexivity. Qed.

Lemma sweep_failure_leaves_output_on_witness :
  let out := process (failing_at 1 timeout "1.5,2.0e-3") (sweep_request [])
               (boot true) in
  fst out = inr (error_response (exn_str timeout))
  /\ exists evs,
       trace (snd out) = trace (boot true) ++ evs
       /\ last evs (EvSleep PNone) = qu ":READ?"
       /\ ~ In output_off (instrument_calls evs).
Proof.
  intros out.
  pose (E := failing_at 1 timeout "1.5,2.0e-3").
  pose (w1 := snd (run E (sweep_setup Runtime.py_format (PFloat 0.1))
                     (boot true))).
  pose (loop := run E (sweep_loop Runtime.py_float Runtime.py_format
                         Runtime.py_sleep (PFloat 0.1) [0%float] []) w1).
  destruct (sweep_failure_leaves_output_on Runtime.py_float
              Runtime.py_format Runtime.py_sleep E
              [("type", PStr "voltage_sweep"); ("data", PDict [])] []
              (boot true) w1 (snd loop)
              [0%float] (tl (tl levels_0_5_11)) 0.5%float
              (match fst loop with inr l => l | inl _ => [] end)
              timeout EmptyString eq_refl eq_refl)
    as (Hresp & _ & Hevs);
    try (vm_compute; reflexivity).
  split; [exact Hresp | exact Hevs].
Defined.

(** C3 fails on the code: a sweep of one step has configured the source
    and switched the output on before it fails on the division, and a sweep
    of no step is a success. *)
Lemma sweep_of_one_step_reaches_the_instrument :
  let out := process (answering "1.5,2.0e-3")
               (sweep_request [("steps", PInt 1)]) (boot true) in
  fst out = inr (error_response "division by zero")
  /\ trace (snd out)
     = [wr ":SOUR:FUNC VOLT"; wr ":SOUR:VOLT:MODE FIXED";
        wr (":SENS:FUNC " +++ quoted "CURR"); wr ":SENS:CURR:PROT 0.1";
        wr ":OUTP ON"]
  /\ fst (process (answering "1.5,2.0e-3")
            (sweep_request [("steps", PInt 0)]) (boot true))
     = inr (success_data (PList [])).
Proof. repeat split; vm_compute; reflexivity. Qed.

Lemma sweep_below_two_steps_witness :
  let out := process (answering "1.5,2.0e-3")
               (sweep_request [("steps", PInt 1)]) (boot true) in
  exists evs,
    trace (snd out) = trace (boot true) ++ wr ":SOUR:FUNC VOLT" :: evs.
Proof.
  exact (proj1 (sweep_below_two_steps Runtime.py_float Runtime.py_format
                  Runtime.py_sleep (answering "1.5,2.0e-3")
                  [("type", PStr "voltage_sweep");
                   ("data", PDict [("steps", PInt 1)])]
                  [("steps", PInt 1)] (boot true) 1
                  eq_refl eq_refl eq_refl eq_refl)).
Defined.


(** A standard-mode read of a reply with two fields: resistance and power
    are [None]. *)
Lemma read_shape_witness :
  exists m,
    response_of (process (answering "1.5,2.0e-3") read_request (boot false))
    = success_data (PDict m)
    /\ keys m = ["voltage"; "current"; "resistance"; "power"; "timestamp";
                 "read_time_ms"]
    /\ dict_get m "resistance" (PInt 0) = PNone
    /\ dict_get m "power" (PInt 0) = PNone.
Proof.
  destruct (read_shape Runtime.py_float Runtime.py_format Runtime.py_sleep
              (answering "1.5,2.0e-3")
              [("type", PStr "read"); ("data", PDict [])] (boot false)
              (response_of (process (answering "1.5,2.0e-3") read_request
                              (boot false)))
              eq_refl eq_refl eq_refl)
    as (m & Hresp & Hkeys & _ & Hstd).
  destruct (Hstd eq_refl) as (reply & Hreply & Hres & Hpow).
  injection Hreply as <-.
  exists m; repeat split; assumption.
Defined.


(** The default sweep on an instrument that answers. *)
Lemma sweep_0_5_11_witness :
  exists results,
    response_of (process (answering "1.5,2.0e-3") (sweep_request [])
                   (boot true))
    = success_data (PList results)
    /\ List.length results = 11%nat
    /\ map set_voltage results = map PFloat levels_0_5_11.
Proof.
  destruct (sweep_0_5_11 Runtime.py_float Runtime.py_format Runtime.py_sleep
              (answering "1.5,2.0e-3")
              [("type", PStr "voltage_sweep"); ("data", PDict [])] []
              (boot true)
              (response_of (process (answering "1.5,2.0e-3")
                              (sweep_request []) (boot true)))
              eq_refl eq_refl (or_introl eq_refl) (or_introl eq_refl)
              eq_refl)
    as (_ & _ & results & evs & Hresp & Hlen & Hsets & _);
    try (vm_compute; reflexivity).
  exists results; repeat split; assumption.
Defined.

(** A read that times out, first error since the counters were at zero. *)
Lemma read_failure_is_contained_witness :
  let out := process (failing_at 0 timeout "1.5,2.0e-3") read_request
               (boot true) in
  fst out = inr (error_response (exn_str timeout))
  /\ failed (response_of out) = true
  /\ running (self (snd out)) = true
  /\ error_count (self (snd out)) = 1
  /\ log_records (trace (snd out))
     = [(WARNING, "Read timeout (x1): " +++ exn_str timeout)].
Proof.
  intros out.
  destruct (read_failure_is_contained Runtime.py_float Runtime.py_format
              Runtime.py_sleep (failing_at 0 timeout "1.5,2.0e-3")
              [("type", PStr "read"); ("data", PDict [])] (boot true)
              eq_refl)
    as (response & Hresp & Hrunning & Hfail & _ & Hquery & _).
  destruct (Hfail timeout (Hquery timeout eq_refl))
    as (Hresponse & Hcount & Hlog).
  split; [exact (eq_trans Hresp (f_equal inr Hresponse)) |].
  split; [vm_compute; reflexivity |].
  split; [exact Hrunning |].
  split; [exact Hcount | exact Hlog].
Defined.

(** C10 fails on the code as stated: in fast mode a third field that is not
    a number is never read, and the read succeeds. *)
Lemma bad_third_field_is_ignored :
  let out := process (answering "1.5,2.0e-3,xyz") read_request (boot true) in
  In "xyz" (fields "1.5,2.0e-3,xyz")
  /\ Runtime.py_float "xyz" = inl (Runtime.float_error "xyz")
  /\ succeeded (response_of out) = true
  /\ error_count (self (snd out)) = 0.
Proof. repeat split; vm_compute; auto. Qed.

(** A reply of one field in fast mode. *)
Lemma fast_read_rejects_bad_reply_witness :
  let out := process (answering "1.5") read_request (boot true) in
  (exists msg, fst out = inr (error_response msg))
  /\ read_count (self (snd out)) = 0 + 1
  /\ error_count (self (snd out)) = 0 + 1.
Proof.
  apply (fast_read_rejects_bad_reply Runtime.py_float Runtime.py_format
           Runtime.py_sleep (answering "1.5")
           [("type", PStr "read"); ("data", PDict [])] (boot true) "1.5");
    try reflexivity.
  left; vm_compute; lia.
Defined.


End OnTheBench.

(** * More properties on the bench *)

Section MoreOnTheBench.

Import Bench.
Import Rig.

(** A type the dispatcher does not know. *)
Lemma unknown_command_rejected_witness :
  process (answering "1.5,2.0e-3") (request "sweep" []) (boot true)
  = (inr (error_response "Unknown command type: sweep"), boot true).
Proof.
  exact (unknown_command_rejected Runtime.py_float Runtime.py_format
           Runtime.py_sleep (answering "1.5,2.0e-3")
           [("type", PStr "sweep"); ("data", PDict [])] (boot true)
           eq_refl).
Defined.

(** A write whose data is the command itself instead of an object. *)
Lemma malformed_data_rejected_witness :
  process (answering "1.5,2.0e-3")
    (PDict [("type", PStr "write"); ("data", PStr "*RST")]) (boot true)
  = (inr (error_response "'str' object has no attribute 'get'"), boot true).
Proof.
  exact (malformed_data_rejected Runtime.py_float Runtime.py_format
           Runtime.py_sleep (answering "1.5,2.0e-3")
           [("type", PStr "write"); ("data", PStr "*RST")] "write"
           (boot true) eq_refl (or_introl eq_refl) eq_refl).
Defined.

(** An output command that the instrument refuses still carries a
    message. *)
Lemma response_carries_what_the_client_reads_witness :
  has_message
    (response_of (process (read_only "1" no_listeners)
                    (request "output" [("state", PStr "ON")]) (boot true))).
Proof.
  apply (response_carries_what_the_client_reads Runtime.py_float
           Runtime.py_format Runtime.py_sleep (read_only "1" no_listeners)
           [("type", PStr "output"); ("data", PDict [("state", PStr "ON")])]
           "output" (boot true)).
  - reflexivity.
  - vm_compute; reflexivity.
  - simpl; auto.
Defined.

(** One volt under ten milliamperes of compliance, range left to AUTO. *)
Lemma setup_voltage_source_calls_witness :
  let out := process (answering "1.5,2.0e-3")
               (request "setup_voltage_source"
                  [("voltage", PFloat 1); ("compliance", PFloat 0.01)])
               (boot true) in
  fst out
  = inr (success_message "Voltage source setup: 1.0V, compliance: 0.01A")
  /\ trace (snd out)
     = [wr ":SOUR:FUNC VOLT"; wr ":SOUR:VOLT:MODE FIXED"; wr ":SOUR:VOLT 1.0";
        wr (":SENS:FUNC " +++ quoted "CURR"); wr ":SENS:CURR:PROT 0.01"].
Proof.
  intros out.
  destruct (setup_voltage_source_calls Runtime.py_float Runtime.py_format
              Runtime.py_sleep (answering "1.5,2.0e-3")
              [("type", PStr "setup_voltage_source");
               ("data", PDict [("voltage", PFloat 1);
                               ("compliance", PFloat 0.01)])]
              [("voltage", PFloat 1); ("compliance", PFloat 0.01)]
              (boot true) eq_refl eq_refl) as [_ Hok].
  destruct (Hok (response_of out)) as [Hresp Htrace];
    try (vm_compute; reflexivity).
  split; [vm_compute; reflexivity | exact Htrace].
Defined.

(** One milliampere in the 10 mA range. *)
Lemma setup_current_source_calls_witness :
  let out := process (answering "1.5,2.0e-3")
               (request "setup_current_source"
                  [("current", PFloat 0.001); ("range", PFloat 0.01)])
               (boot true) in
  fst out
  = inr (success_message "Current source setup: 0.001A, compliance: 10V")
  /\ trace (snd out)
     = [wr ":SOUR:FUNC CURR"; wr ":SOUR:CURR:MODE FIXED";
        wr ":SOUR:CURR 0.001"; wr ":SOUR:CURR:RANG 0.01";
        wr (":SENS:FUNC " +++ quoted "VOLT"); wr ":SENS:VOLT:PROT 10"].
Proof.
  intros out.
  destruct (setup_current_source_calls Runtime.py_float Runtime.py_format
              Runtime.py_sleep (answering "1.5,2.0e-3")
              [("type", PStr "setup_current_source");
               ("data", PDict [("current", PFloat 0.001);
                               ("range", PFloat 0.01)])]
              [("current", PFloat 0.001); ("range", PFloat 0.01)]
              (boot true) eq_refl eq_refl) as [_ Hok].
  destruct (Hok (response_of out)) as [Hresp Htrace];
    try (vm_compute; reflexivity).
  split; [vm_compute; reflexivity | exact Htrace].
Defined.

(** The status of an instrument that answers 1 to everything. *)
Lemma get_status_reports_witness :
  let out := process (answering "1") (request "get_status" []) (boot true) in
  exists idn output_state source_func stamp,
    trace (snd out)
    = trace (boot true) ++ [qu "*IDN?"; qu ":OUTP?"; qu ":SOUR:FUNC?";
                            EvDate stamp]
    /\ instrument (answering "1") (trace (boot true) ++ [qu "*IDN?"])
         (IQuery (PStr ":OUTP?"))
       = inr output_state
    /\ response_of out
       = success_data (PDict
           [("instrument", PStr (strip idn));
            ("output", PStr (if String.eqb (strip output_state) "1"
                             then "ON" else "OFF"));
            ("source_function", PStr (strip source_func));
            ("timestamp", PStr stamp);
            ("fast_mode", PBool true);
            ("read_count", PInt 0);
            ("error_count", PInt 0)]).
Proof.
  intros out.
  destruct (get_status_reports Runtime.py_float Runtime.py_format
              Runtime.py_sleep (answering "1")
              [("type", PStr "get_status"); ("data", PDict [])]
              (boot true) eq_refl) as [_ Hok].
  apply (Hok (response_of out)); vm_compute; reflexivity.
Defined.

(** The instrument refuses the writes: the response is a failure, and the
    flag is off all the same. *)
Lemma set_fast_mode_stores_the_flag_witness :
  let out := process (read_only "1" no_listeners)
               (request "set_fast_mode" [("enabled", PBool false)])
               (boot true) in
  failed (response_of out) = true
  /\ self (snd out) = set_fast_mode (PBool false) (self (boot true)).
Proof.
  intros out.
  split; [vm_compute; reflexivity |].
  exact (proj1 (set_fast_mode_stores_the_flag Runtime.py_float
                  Runtime.py_format Runtime.py_sleep
                  (read_only "1" no_listeners)
                  [("type", PStr "set_fast_mode");
                   ("data", PDict [("enabled", PBool false)])]
                  [("enabled", PBool false)] (boot true) eq_refl eq_refl)).
Defined.

(** The same refused set_fast_mode, then a status: it reports the flag
    off. *)
Lemma status_reports_the_requested_mode_witness :
  exists r1 r2 w',
    run (read_only "1" no_listeners)
      (in_turn [program (request "set_fast_mode" [("enabled", PBool false)]);
                program (request "get_status" [])]) (boot true)
    = (inr [r1; r2], w')
    /\ failed r1 = true
    /\ dict_get (body r2) "fast_mode" PNone = PBool false.
Proof.
  do 3 eexists.
  split; [vm_compute; reflexivity |].
  split; [vm_compute; reflexivity |].
  eapply (status_reports_the_requested_mode Runtime.py_float
            Runtime.py_format Runtime.py_sleep (read_only "1" no_listeners)
            [("type", PStr "set_fast_mode");
             ("data", PDict [("enabled", PBool false)])]
            [("enabled", PBool false)]
            [("type", PStr "get_status"); ("data", PDict [])]
            (boot true));
    vm_compute; reflexivity.
Defined.

(** A read that times out has made its one query. *)
Lemma read_makes_one_query_witness :
  exists evs,
    trace (snd (process (failing_at 0 timeout "1.5,2.0e-3") read_request
                  (boot true)))
    = trace (boot true) ++ evs
    /\ instrument_calls evs = [IQuery (PStr ":READ?")].
Proof.
  exact (read_makes_one_query Runtime.py_float Runtime.py_format
           Runtime.py_sleep (failing_at 0 timeout "1.5,2.0e-3")
           [("type", PStr "read"); ("data", PDict [])] (boot true) eq_refl).
Defined.


(** Two reads are waiting when the client goes: the second is never
    looked at. *)
Lemma failed_send_ends_the_session_witness :
  let out := run (hung_up "1.5,2.0e-3" broken_pipe)
               (client [RecvJson read_request; RecvJson read_request])
               (boot true) in
  out = run (hung_up "1.5,2.0e-3" broken_pipe)
          (client [RecvJson read_request]) (boot true)
  /\ fst out = inr tt
  /\ In (ERROR, "Client ('127.0.0.1', 50514) error: [Errno 32] Broken pipe")
        (log_records (trace (snd out))).
Proof.
  intros out.
  apply (failed_send_ends_the_session Runtime.py_float Runtime.py_format
           Runtime.py_sleep (hung_up "1.5,2.0e-3" broken_pipe) peer
           (RecvJson read_request) [RecvJson read_request] (boot true)
           broken_pipe).
  - reflexivity.
  - exact I.
  - reflexivity.
Defined.

(** Three rounds without a read. *)
Lemma stats_reporter_idle_witness :
  run (answering "1.5,2.0e-3") (stats_reporter Runtime.py_format 3)
    (boot true)
  = (inr tt,
     World (self (boot true))
       [EvSleep (PInt 30); EvSleep (PInt 30); EvSleep (PInt 30)]).
Proof.
  apply (stats_reporter_idle Runtime.py_format (answering "1.5,2.0e-3") 3
           (boot true)).
  simpl; lia.
Defined.

(** The clock reads, after the sleep, the time of the last report: the
    rate is a division by zero and the thread is gone. *)
Lemma stats_reporter_ends_on_error_witness :
  run (answering "1.5,2.0e-3") (stats_reporter Runtime.py_format 5)
    (counted 7 1001)
  = (inl (Exn "ZeroDivisionError" "float division by zero"),
     World (self (counted 7 1001)) [EvSleep (PInt 30); EvClock 1001]).
Proof.
  apply (stats_reporter_ends_on_error Runtime.py_format
           (answering "1.5,2.0e-3") 4 (counted 7 1001)
           (Exn "ZeroDivisionError" "float division by zero")).
  - reflexivity.
  - simpl; lia.
  - vm_compute; reflexivity.
Defined.

(** A sweep in three steps. *)
Lemma sweep_returns_one_entry_per_step_witness :
  exists results,
    response_of (process (answering "1.5,2.0e-3")
                   (sweep_request [("steps", PInt 3)]) (boot true))
    = success_data (PList results)
    /\ List.length results = 3%nat
    /\ Forall (fun entry => entry_keys entry = sweep_keys) results.
Proof.
  destruct (sweep_returns_one_entry_per_step Runtime.py_float
              Runtime.py_format Runtime.py_sleep (answering "1.5,2.0e-3")
              [("type", PStr "voltage_sweep");
               ("data", PDict [("steps", PInt 3)])]
              [("steps", PInt 3)] (boot true)
              (response_of (process (answering "1.5,2.0e-3")
                              (sweep_request [("steps", PInt 3)])
                              (boot true)))
              3 eq_refl eq_refl eq_refl)
    as (results & Hresp & Hlen & Hkeys & _);
    try (vm_compute; reflexivity).
  exists results; repeat split; assumption.
Defined.

End MoreOnTheBench.
